(** * Integrated agent framework: workflow graph, routing and response assembly

    A shallow embedding of
    [app/modules/intelligence/agents/integrated_agent_framework.py]:
    the state threaded through the agent nodes, the error classifier, the
    reflection router, the graph assembled by [_build_workflow], the four
    nodes of [DefaultIntegratedAgent], and the rendering of a state into a
    chat response.

    Python [int] is [Z]; [str] is [string] (a byte sequence, UTF-8); a
    [dict] with a fixed set of keys is a record. *)

From Stdlib Require Import String Ascii List ZArith Lia Bool.
From Stdlib Require Import DecimalString.
From Stdlib Require Floats.PrimFloat Numbers.Cyclic.Int63.Uint63.
Import ListNotations.

Set Warnings "-inexact-float".

Local Open Scope string_scope.
Local Open Scope Z_scope.
Local Open Scope list_scope.

(* ================================================================= *)
(** ** Strings as Python uses them here *)

Module PyStr.

Definition nl : string := String (ascii_of_nat 10) EmptyString.

(** [c.lower()] on one byte: only [A]..[Z] move.  The keywords searched
    for below are ASCII and contain neither [k] nor a final [i], so the
    code points whose Unicode lower-casing yields ASCII letters (U+212A,
    U+0130) cannot create or destroy a match. *)
Definition lower_ascii (c : ascii) : ascii :=
  let n := nat_of_ascii c in
  if (Nat.leb 65 n && Nat.leb n 90)%bool then ascii_of_nat (n + 32) else c.

(** [s.lower()] *)
Fixpoint lower (s : string) : string :=
  match s with
  | EmptyString => EmptyString
  | String c s' => String (lower_ascii c) (lower s')
  end.

(** [s.startswith(p)] *)
Fixpoint startswith (p s : string) : bool :=
  match p, s with
  | EmptyString, _ => true
  | String _ _, EmptyString => false
  | String a p', String b s' => (Ascii.eqb a b && startswith p' s')%bool
  end.

(** [kw in s]: [kw] occurs in [s] as a contiguous substring. *)
Fixpoint contains (kw s : string) : bool :=
  (startswith kw s ||
   match s with
   | EmptyString => false
   | String _ s' => contains kw s'
   end)%bool.

(** [any(kw in s for kw in kws)] *)
Definition any_in (kws : list string) (s : string) : bool :=
  existsb (fun kw => contains kw s) kws.

(** [sep.join(parts)] *)
Fixpoint join (sep : string) (parts : list string) : string :=
  match parts with
  | [] => EmptyString
  | [p] => p
  | p :: rest => (p ++ sep ++ join sep rest)%string
  end.

(** Truthiness of a [str]. *)
Definition truthy (s : string) : bool :=
  match s with EmptyString => false | String _ _ => true end.

(** [kw] occurs in [s], as a proposition. *)
Definition occurs (kw s : string) : Prop :=
  exists pre post, s = (pre ++ kw ++ post)%string.

End PyStr.

(* ================================================================= *)
(** ** Data model *)

(** [class AgentType(Enum)] with its values. *)
Inductive AgentType : Set := CODE | RESEARCH | PLANNING | REFLECTION.

Definition AgentType_value (t : AgentType) : string :=
  match t with
  | CODE => "code"
  | RESEARCH => "research"
  | PLANNING => "planning"
  | REFLECTION => "reflection"
  end.

Definition AgentType_eqb (a b : AgentType) : bool :=
  match a, b with
  | CODE, CODE | RESEARCH, RESEARCH
  | PLANNING, PLANNING | REFLECTION, REFLECTION => true
  | _, _ => false
  end.

(** One element of [state["results"]]: [{"content": ..., "citations": ...}]. *)
Record ResultEntry : Set := mkResult {
  content : string;
  citations : list string
}.

(** One recorded tool call; every key is read with [.get], so may be absent. *)
Record ToolCall : Set := mkToolCall {
  tc_id : option string;
  tc_event_type : option string;
  tc_name : option string;
  tc_response : option string;
  tc_details : option (list (string * string))
}.

(** One element of [state["history"]]:
    [{"agent": ..., "result": ..., "tool_calls": ...}]. *)
Record HistoryEntry : Set := mkHistory {
  agent : string;
  result : ResultEntry;
  tool_calls : list ToolCall
}.

(** [state["context"]] as [run] and [run_stream] build it. *)
Record Context : Set := mkContext {
  project_id : string;
  agent_id : string;
  prior_history : list string;
  node_ids : list string;
  additional_context : string
}.

(** [class AgentState(TypedDict)].  [errors] is declared optional, but both
    entry points create it as a list and no node unsets it. *)
Record AgentState : Set := mkState {
  query : string;
  context : Context;
  results : list ResultEntry;
  errors : list string;
  remaining_steps : Z;
  current_agent : string;
  history : list HistoryEntry
}.

(** [class IntegratedAgentConfig(BaseModel)] *)
Record IntegratedAgentConfig : Set := mkConfig {
  max_iterations : Z;
  agent_types : list AgentType;
  reflection_enabled : bool;
  fault_tolerance_level : Z;
  tools : list string
}.

(** The request, [ChatContext], as far as [run] reads it. *)
Record ChatContext : Set := mkChatContext {
  ctx_query : string;
  ctx_project_id : string;
  ctx_curr_agent_id : string;
  ctx_history : list string;
  ctx_node_ids : option (list string);
  ctx_additional_context : string
}.

(** [ToolCallResponse] *)
Record ToolCallResponse : Set := mkToolCallResponse {
  call_id : string;
  event_type : string;
  tool_name : string;
  tool_response : string;
  tool_call_details : list (string * string)
}.

(** [ChatAgentResponse].  [citations] is [list(set(...))] in the source, whose
    order Python leaves open; here it is a list without repeats. *)
Record ChatAgentResponse : Set := mkResponse {
  response : string;
  resp_tool_calls : list ToolCallResponse;
  resp_citations : list string
}.

(** [AgentType.X in self.config.agent_types] *)
Definition has_type (cfg : IntegratedAgentConfig) (t : AgentType) : bool :=
  existsb (AgentType_eqb t) (agent_types cfg).

(* ================================================================= *)
(** ** Error classifier and reflection router *)

Definition code_keywords : list string := ["code"; "syntax"; "runtime"; "exception"].
Definition research_keywords : list string := ["research"; "information"; "data"].
Definition planning_keywords : list string := ["plan"; "strategy"; "approach"].

(** [_classify_error] *)
Definition _classify_error (error : string) : string :=
  if PyStr.any_in code_keywords (PyStr.lower error) then "code"
  else if PyStr.any_in research_keywords (PyStr.lower error) then "research"
  else if PyStr.any_in planning_keywords (PyStr.lower error) then "planning"
  else "code".

(** [xs[-1]], when [xs] is not empty. *)
Definition last_of {A : Type} (xs : list A) : option A :=
  match rev xs with
  | [] => None
  | x :: _ => Some x
  end.

(** [_reflection_router].  The test [state.get("errors") and
    len(state["errors"]) > 0] is the non-emptiness of the list. *)
Definition _reflection_router (cfg : IntegratedAgentConfig) (state : AgentState)
  : string :=
  if remaining_steps state <=? 0 then "end"
  else
    match last_of (errors state) with
    | Some last_error =>
        let error_type := _classify_error last_error in
        if (String.eqb error_type "code" && has_type cfg CODE)%bool then "code"
        else if (String.eqb error_type "research" && has_type cfg RESEARCH)%bool
        then "research"
        else if (String.eqb error_type "planning" && has_type cfg PLANNING)%bool
        then "planning"
        else "end"
    | None => "end"
    end.

(* ================================================================= *)
(** ** The nodes of [DefaultIntegratedAgent] *)

Definition set_current_agent (a : string) (s : AgentState) : AgentState :=
  mkState (query s) (context s) (results s) (errors s) (remaining_steps s)
          a (history s).

Definition append_result (r : ResultEntry) (s : AgentState) : AgentState :=
  mkState (query s) (context s) (results s ++ [r]) (errors s)
          (remaining_steps s) (current_agent s) (history s).

Definition append_history (h : HistoryEntry) (s : AgentState) : AgentState :=
  mkState (query s) (context s) (results s) (errors s) (remaining_steps s)
          (current_agent s) (history s ++ [h]).

Definition decrement_steps (s : AgentState) : AgentState :=
  mkState (query s) (context s) (results s) (errors s) (remaining_steps s - 1)
          (current_agent s) (history s).

(** [state["errors"] = state.get("errors", []) + [error_msg]] *)
Definition add_error (error_msg : string) (s : AgentState) : AgentState :=
  mkState (query s) (context s) (results s) (errors s ++ [error_msg])
          (remaining_steps s) (current_agent s) (history s).

(** The agent logic of a node is a placeholder in the source (the comment
    [Implement ... agent logic here] at the head of each [try] block).  Its
    outcome is a parameter of the node: [None] when it completes, [Some msg]
    when it raises an exception whose [str] is [msg]; being at the head of
    the block, it raises before any of the updates of the block. *)
Definition Outcome : Set := option string.

(** The body of a [try] block once the entry [result] is built. *)
Definition record_step (name : string) (r : ResultEntry) (s : AgentState)
  : AgentState :=
  decrement_steps (append_history (mkHistory name r []) (append_result r s)).

(** The [except] block of the code, research and planning nodes, which
    differ in the two texts only. *)
Definition recovering_except (fault_tolerance : Z) (who : string)
    (e : string) (s : AgentState) : AgentState :=
  let error_msg := ("Error in " ++ who ++ " agent: " ++ e)%string in
  let s := add_error error_msg s in
  if fault_tolerance >=? 2 then
    append_result
      (mkResult ("The " ++ who ++
                 " agent encountered an error but is attempting to recover.")%string
                [])
      s
  else s.

(** The [except] block of the reflection node: the error is recorded and
    nothing else. *)
Definition reflection_except (e : string) (s : AgentState) : AgentState :=
  add_error ("Error in reflection agent: " ++ e)%string s.

Section Agent.

(** [self.config] *)
Variable config : IntegratedAgentConfig.

Definition _code_agent_node (logic : Outcome) (state : AgentState) : AgentState :=
  let state := set_current_agent "code_agent" state in
  match logic with
  | None =>
      record_step "code_agent"
        (mkResult ("Code agent processed query: " ++ query state)%string [])
        state
  | Some e => recovering_except (fault_tolerance_level config) "code" e state
  end.

Definition _research_agent_node (logic : Outcome) (state : AgentState)
  : AgentState :=
  let state := set_current_agent "research_agent" state in
  match logic with
  | None =>
      record_step "research_agent"
        (mkResult ("Research agent processed query: " ++ query state)%string
                  ["research_source_1"; "research_source_2"])
        state
  | Some e => recovering_except (fault_tolerance_level config) "research" e state
  end.

Definition _planning_agent_node (logic : Outcome) (state : AgentState)
  : AgentState :=
  let state := set_current_agent "planning_agent" state in
  match logic with
  | None =>
      record_step "planning_agent"
        (mkResult ("Planning agent processed query: " ++ query state)%string [])
        state
  | Some e => recovering_except (fault_tolerance_level config) "planning" e state
  end.

Definition _reflection_agent_node (logic : Outcome) (state : AgentState)
  : AgentState :=
  let state := set_current_agent "reflection_agent" state in
  match logic with
  | None =>
      let result :=
        match last_of (errors state) with
        | Some last_error =>
            mkResult ("Reflection agent identified issues: " ++ last_error)%string []
        | None =>
            mkResult
              "Reflection agent reviewed the results and found them satisfactory."
              []
        end in
      record_step "reflection_agent" result state
  | Some e => reflection_except e state
  end.

End Agent.

(* ================================================================= *)
(** ** The workflow graph *)

(** The names under which nodes are added to the graph. *)
Inductive NodeName : Set :=
  code_agent | research_agent | planning_agent | reflection_agent.

Definition NodeName_eqb (a b : NodeName) : bool :=
  match a, b with
  | code_agent, code_agent | research_agent, research_agent
  | planning_agent, planning_agent | reflection_agent, reflection_agent => true
  | _, _ => false
  end.

(** The end of an edge: a node, or the graph's [END]. *)
Inductive Target : Set := END | Node (n : NodeName).

(** A [StateGraph(AgentState)] under construction: the nodes added, the edge
    from [START], the plain edges and the conditional edges (source, router,
    table from the router's answer to a target), in the order of addition. *)
Record StateGraph : Type := mkGraph {
  nodes : list NodeName;
  entry_point : option NodeName;
  edges : list (NodeName * Target);
  branches : list (NodeName * ((AgentState -> string) * list (string * Target)))
}.

Definition empty_graph : StateGraph := mkGraph [] None [] [].

Definition add_node (n : NodeName) (g : StateGraph) : StateGraph :=
  mkGraph (nodes g ++ [n]) (entry_point g) (edges g) (branches g).

Definition set_entry_point (n : NodeName) (g : StateGraph) : StateGraph :=
  mkGraph (nodes g) (Some n) (edges g) (branches g).

Definition add_edge (a : NodeName) (b : Target) (g : StateGraph) : StateGraph :=
  mkGraph (nodes g) (entry_point g) (edges g ++ [(a, b)]) (branches g).

Definition add_conditional_edges (a : NodeName) (router : AgentState -> string)
    (ends : list (string * Target)) (g : StateGraph) : StateGraph :=
  mkGraph (nodes g) (entry_point g) (edges g) (branches g ++ [(a, (router, ends))]).

Section Workflow.

Variable config : IntegratedAgentConfig.

(** The table given to [add_conditional_edges]. *)
Definition reflection_ends : list (string * Target) :=
  [ ("end", END);
    ("code", if has_type config CODE then Node code_agent else END);
    ("research", if has_type config RESEARCH then Node research_agent else END);
    ("planning", if has_type config PLANNING then Node planning_agent else END) ].

(** [_add_workflow_edges] *)
Definition _add_workflow_edges (workflow : StateGraph) : StateGraph :=
  let workflow :=
    if (has_type config PLANNING && has_type config RESEARCH)%bool
    then add_edge planning_agent (Node research_agent) workflow
    else workflow in
  let workflow :=
    if (has_type config RESEARCH && has_type config CODE)%bool
    then add_edge research_agent (Node code_agent) workflow
    else workflow in
  if reflection_enabled config then
    let workflow :=
      if has_type config CODE
      then add_edge code_agent (Node reflection_agent) workflow
      else workflow in
    add_conditional_edges reflection_agent (_reflection_router config)
                          reflection_ends workflow
  else
    if has_type config CODE then add_edge code_agent END workflow
    else if has_type config RESEARCH then add_edge research_agent END workflow
    else workflow.

(** [_build_workflow], up to the call of [compile]. *)
Definition _build_workflow : StateGraph :=
  let workflow := empty_graph in
  let workflow :=
    if has_type config CODE then add_node code_agent workflow else workflow in
  let workflow :=
    if has_type config RESEARCH then add_node research_agent workflow
    else workflow in
  let workflow :=
    if has_type config PLANNING then add_node planning_agent workflow
    else workflow in
  let workflow :=
    if reflection_enabled config then add_node reflection_agent workflow
    else workflow in
  let workflow :=
    if has_type config PLANNING then set_entry_point planning_agent workflow
    else if has_type config RESEARCH then set_entry_point research_agent workflow
    else set_entry_point code_agent workflow in
  _add_workflow_edges workflow.

(** The method each node name was added with. *)
Definition node_action (n : NodeName) : Outcome -> AgentState -> AgentState :=
  match n with
  | code_agent => _code_agent_node config
  | research_agent => _research_agent_node config
  | planning_agent => _planning_agent_node config
  | reflection_agent => _reflection_agent_node
  end.

End Workflow.

(* ================================================================= *)
(** ** The graph runtime *)

(** The graph is compiled and run by the [langgraph] library, which the
    source imports and whose code is not part of it.  Its part in a run is
    described here after sections 4.1 and 4.4 of the specification. *)

Definition is_node (g : StateGraph) (n : NodeName) : bool :=
  existsb (NodeName_eqb n) (nodes g).

Definition is_target (g : StateGraph) (t : Target) : bool :=
  match t with
  | END => true
  | Node n => is_node g n
  end.

(** Modelled from the spec: [workflow.compile()], whose code belongs to the
    graph library.  Building fails when the entry point or an edge names a
    node that was not added (sections 3 and 4.1). *)
Definition compile (g : StateGraph) : option StateGraph :=
  match entry_point g with
  | None => None
  | Some n =>
      if (is_node g n
          && forallb (fun e => is_node g (fst e) && is_target g (snd e)) (edges g)
          && forallb (fun b => is_node g (fst b)
                               && forallb (fun kt => is_target g (snd kt))
                                          (snd (snd b)))
                     (branches g))%bool
      then Some g
      else None
  end.

Fixpoint lookup_node {A : Type} (n : NodeName) (l : list (NodeName * A))
  : option A :=
  match l with
  | [] => None
  | (m, a) :: l' => if NodeName_eqb n m then Some a else lookup_node n l'
  end.

Fixpoint lookup_key {A : Type} (k : string) (l : list (string * A)) : option A :=
  match l with
  | [] => None
  | (k', a) :: l' => if String.eqb k k' then Some a else lookup_key k l'
  end.

(** Modelled from the spec: the choice of the next node (section 4.4): the
    unconditional edge if there is one; otherwise the conditional edge, whose
    router is asked; otherwise the run is complete. *)
Definition next_node (g : StateGraph) (cur : NodeName) (state : AgentState)
  : Target :=
  match lookup_node cur (edges g) with
  | Some t => t
  | None =>
      match lookup_node cur (branches g) with
      | Some (router, ends) =>
          match lookup_key (router state) ends with
          | Some t => t
          | None => END
          end
      | None => END
      end
  end.

(** What the agent logic does at each invocation of a run: the outcome of
    the [i]-th invocation, when it is an invocation of node [n]. *)
Definition Oracle : Set := nat -> NodeName -> Outcome.

Definition no_fault : Oracle := fun _ _ => None.

(** One node invocation of a run: the node, the outcome of its logic, and
    the state it returned. *)
Record Tick : Set := mkTick {
  tick_node : NodeName;
  tick_outcome : Outcome;
  tick_state : AgentState
}.

Section Runtime.

Variable config : IntegratedAgentConfig.
Variable g : StateGraph.
Variable oracle : Oracle.

(** Modelled from the spec: [workflow.invoke(state)] (section 4.4), the
    step loop of the graph library.  Nodes are invoked one after the other
    along the edges, from the entry node on, each on the state its
    predecessor returned, until no edge leads on.  [limit] is the number of
    steps the library allows one run; the result is the number of
    invocations made and the final state, or [None] in its place when the
    limit stopped the run.  The loop does not touch the budget: the source
    passes [max_iterations] to the library only inside the state, as
    [remaining_steps], which the nodes decrement and the router tests. *)
Fixpoint invoke (limit i : nat) (cur : Target) (state : AgentState)
  : nat * option AgentState :=
  match cur with
  | END => (0%nat, Some state)
  | Node n =>
      match limit with
      | O => (0%nat, None)
      | S limit' =>
          let state' := node_action config n (oracle i n) state in
          let (k, final) :=
            invoke limit' (S i) (next_node g n state') state' in
          (S k, final)
      end
  end.

(** Modelled from the spec: [workflow.astream(state)] (section 4.4): the
    same steps, one element produced after each node invocation. *)
Fixpoint astream (limit i : nat) (cur : Target) (state : AgentState)
  : list Tick :=
  match cur with
  | END => []
  | Node n =>
      match limit with
      | O => []
      | S limit' =>
          let state' := node_action config n (oracle i n) state in
          mkTick n (oracle i n) state'
            :: astream limit' (S i) (next_node g n state') state'
      end
  end.

End Runtime.

(* ================================================================= *)
(** ** Response assembly and the two entry points *)

Definition no_results_message : string := "No results were produced by the agent.".

Definition blank_line : string := (PyStr.nl ++ PyStr.nl)%string.

(** The loop of [_format_response] that fills [response_parts]. *)
Definition response_parts (rs : list ResultEntry) : list string :=
  fold_left
    (fun parts r => if PyStr.truthy (content r) then parts ++ [content r] else parts)
    rs [].

(** [_format_response] *)
Definition _format_response (result : AgentState) : string :=
  match results result with
  | [] => no_results_message
  | rs => PyStr.join blank_line (response_parts rs)
  end.

Definition get_or {A : Type} (o : option A) (default : A) : A :=
  match o with
  | Some a => a
  | None => default
  end.

Definition to_response (tc : ToolCall) : ToolCallResponse :=
  mkToolCallResponse (get_or (tc_id tc) "unknown")
                     (get_or (tc_event_type tc) "call")
                     (get_or (tc_name tc) "unknown")
                     (get_or (tc_response tc) EmptyString)
                     (get_or (tc_details tc) []).

(** [_extract_tool_calls]; [called] is the list the source names
    [tool_calls]. *)
Definition _extract_tool_calls (result : AgentState) : list ToolCallResponse :=
  fold_left
    (fun called event =>
       match tool_calls event with
       | [] => called
       | tcs => fold_left (fun called tc => called ++ [to_response tc]) tcs called
       end)
    (history result) [].

(** [_extract_citations] *)
Definition _extract_citations (result : AgentState) : list string :=
  nodup string_dec
        (fold_left (fun cs r => cs ++ citations r) (results result) []).

Definition to_chat_response (result : AgentState) : ChatAgentResponse :=
  mkResponse (_format_response result)
             (_extract_tool_calls result)
             (_extract_citations result).

(** The state both entry points start from. *)
Definition initial_state (config : IntegratedAgentConfig) (ctx : ChatContext)
  : AgentState :=
  mkState (ctx_query ctx)
          (mkContext (ctx_project_id ctx) (ctx_curr_agent_id ctx)
                     (ctx_history ctx) (get_or (ctx_node_ids ctx) [])
                     (ctx_additional_context ctx))
          [] [] (max_iterations config) EmptyString [].

Definition entry_target (g : StateGraph) : Target :=
  match entry_point g with
  | Some n => Node n
  | None => END
  end.

(** What [_format_response], [_extract_tool_calls] and [_extract_citations]
    read from the dictionary they are given: the values under its keys
    "results" and "history", when it has these keys ([.get]). *)
Record Readings : Set := mkReadings {
  get_results : option (list ResultEntry);
  get_history : option (list HistoryEntry)
}.

(** A state has both keys. *)
Definition readings_of_state (s : AgentState) : Readings :=
  mkReadings (Some (results s)) (Some (history s)).

(** An element of the stream of the graph library.  For a compiled state
    graph [astream] yields, after each node invocation, not the state but
    the dictionary [{name: update}]: its one key is the name under which
    the node was added, its value what the node returned. *)
Record StreamEvent : Set := mkEvent {
  event_node : NodeName;
  event_update : AgentState
}.

(** The name of a node is neither "results" nor "history": an event has
    neither key. *)
Definition readings_of_event (e : StreamEvent) : Readings :=
  mkReadings None None.

(** [_format_response] on a dictionary: [not result.get("results")] holds
    when the key is absent as when the list is empty. *)
Definition format_response_of (d : Readings) : string :=
  match get_results d with
  | None => no_results_message
  | Some [] => no_results_message
  | Some rs => PyStr.join blank_line (response_parts rs)
  end.

(** [_extract_tool_calls] on a dictionary: [result.get("history", [])]. *)
Definition extract_tool_calls_of (d : Readings) : list ToolCallResponse :=
  fold_left
    (fun called event =>
       match tool_calls event with
       | [] => called
       | tcs => fold_left (fun called tc => called ++ [to_response tc]) tcs called
       end)
    (get_or (get_history d) []) [].

(** [_extract_citations] on a dictionary: [result.get("results", [])]. *)
Definition extract_citations_of (d : Readings) : list string :=
  nodup string_dec
        (fold_left (fun cs r => cs ++ citations r) (get_or (get_results d) []) []).

(** The [ChatAgentResponse] made of a dictionary by the three functions. *)
Definition response_of (d : Readings) : ChatAgentResponse :=
  mkResponse (format_response_of d) (extract_tool_calls_of d)
             (extract_citations_of d).

Section EntryPoints.

Variable config : IntegratedAgentConfig.
Variable limit : nat.
Variable oracle : Oracle.
Variable ctx : ChatContext.

(** The node invocations of a run, in order; none when the graph of
    [config] cannot be compiled. *)
Definition run_ticks : list Tick :=
  match compile (_build_workflow config) with
  | Some g => astream config g oracle limit 0 (entry_target g)
                      (initial_state config ctx)
  | None => []
  end.

(** [self.workflow.invoke(state)] in [run]: the number of node invocations
    and the state returned. *)
Definition run_state : nat * option AgentState :=
  match compile (_build_workflow config) with
  | Some g => invoke config g oracle limit 0 (entry_target g)
                     (initial_state config ctx)
  | None => (0%nat, None)
  end.

(** [run]: [None] when no response is returned (no compiled graph, or the
    runtime's limit was reached). *)
Definition run : option ChatAgentResponse :=
  option_map to_chat_response (snd run_state).

(** The events [self.workflow.astream(state)] yields in [run_stream], one
    for each node invocation. *)
Definition run_events : list StreamEvent :=
  map (fun t => mkEvent (tick_node t) (tick_state t)) run_ticks.

(** [run_stream]: the responses yielded, each made from the event at hand,
    which is passed as it comes to the three functions, before the next
    step is taken. *)
Definition run_stream : list ChatAgentResponse :=
  map (fun e => response_of (readings_of_event e)) run_events.

End EntryPoints.

(* ================================================================= *)
(** ** Notions used to state the properties *)

(** Some keyword of [kws] occurs in the lower-cased message. *)
Definition mentions (kws : list string) (error : string) : Prop :=
  exists kw, In kw kws /\ PyStr.occurs kw (PyStr.lower error).

(** The outcome of routing as the specification names it. *)
Inductive RoutingDecision : Set := Terminate | GoTo (role : AgentType).

(** [AgentType(value)] *)
Definition role_of_value (v : string) : option AgentType :=
  if String.eqb v "code" then Some CODE
  else if String.eqb v "research" then Some RESEARCH
  else if String.eqb v "planning" then Some PLANNING
  else if String.eqb v "reflection" then Some REFLECTION
  else None.

Definition node_of_role (r : AgentType) : NodeName :=
  match r with
  | CODE => code_agent
  | RESEARCH => research_agent
  | PLANNING => planning_agent
  | REFLECTION => reflection_agent
  end.

(** The router's policy in the words of section 4.3 of the specification:
    terminate when the budget is spent; else, if there are errors, classify
    the most recent one and go to the resulting role if it is enabled;
    otherwise terminate. *)
Definition route_policy (config : IntegratedAgentConfig) (state : AgentState)
  : RoutingDecision :=
  if remaining_steps state <=? 0 then Terminate
  else
    match last_of (errors state) with
    | None => Terminate
    | Some e =>
        match role_of_value (_classify_error e) with
        | Some role => if has_type config role then GoTo role else Terminate
        | None => Terminate
        end
    end.

(** The router's answer and the edge target that stand for a decision. *)
Definition answer_of (d : RoutingDecision) : string :=
  match d with
  | Terminate => "end"
  | GoTo role => AgentType_value role
  end.

Definition target_of (d : RoutingDecision) : Target :=
  match d with
  | Terminate => END
  | GoTo role => Node (node_of_role role)
  end.

(** The text of a response in the words of section 4.5. *)
Definition text_of_results (rs : list ResultEntry) : string :=
  match rs with
  | [] => no_results_message
  | _ => PyStr.join blank_line (filter PyStr.truthy (map content rs))
  end.

(** The recovery placeholder of a node, for the three nodes that have one. *)
Definition recovery_placeholder (n : NodeName) : option ResultEntry :=
  match n with
  | code_agent =>
      Some (mkResult "The code agent encountered an error but is attempting to recover." [])
  | research_agent =>
      Some (mkResult "The research agent encountered an error but is attempting to recover." [])
  | planning_agent =>
      Some (mkResult "The planning agent encountered an error but is attempting to recover." [])
  | reflection_agent => None
  end.

(** The message a node records for a fault [e]. *)
Definition error_message (n : NodeName) (e : string) : string :=
  match n with
  | code_agent => "Error in code agent: " ++ e
  | research_agent => "Error in research agent: " ++ e
  | planning_agent => "Error in planning agent: " ++ e
  | reflection_agent => "Error in reflection agent: " ++ e
  end%string.

(** The name a node leaves in [current_agent]. *)
Definition node_name (n : NodeName) : string :=
  match n with
  | code_agent => "code_agent"
  | research_agent => "research_agent"
  | planning_agent => "planning_agent"
  | reflection_agent => "reflection_agent"
  end.

(** The [except] block of a node, on the state as the block finds it. *)
Definition except_block (config : IntegratedAgentConfig) (n : NodeName)
    (e : string) (s : AgentState) : AgentState :=
  match n with
  | code_agent => recovering_except (fault_tolerance_level config) "code" e s
  | research_agent => recovering_except (fault_tolerance_level config) "research" e s
  | planning_agent => recovering_except (fault_tolerance_level config) "planning" e s
  | reflection_agent => reflection_except e s
  end.

(** The place of a node on the path planning, research, code, reflection:
    the number of nodes from it to the end of the path. *)
Definition rank (n : NodeName) : nat :=
  match n with
  | planning_agent => 4
  | research_agent => 3
  | code_agent => 2
  | reflection_agent => 1
  end.

(** The configuration of the scenario of section 8. *)
Definition scenario_config : IntegratedAgentConfig :=
  mkConfig 5 [PLANNING; RESEARCH; CODE] true 2 [].

Definition login_request : ChatContext :=
  mkChatContext "build a login page" "project" "agent" [] None "none".

(** No entry of the history records a tool call. *)
Definition no_tool_calls (s : AgentState) : Prop :=
  Forall (fun h => tool_calls h = []) (history s).

(** The invocations of a run whose agent logic completed. *)
Definition completed (t : Tick) : bool :=
  match tick_outcome t with
  | None => true
  | Some _ => false
  end.

Definition successes (ticks : list Tick) : nat := length (filter completed ticks).

(** The error messages an invocation adds to [errors]. *)
Definition fault_messages (t : Tick) : list string :=
  match tick_outcome t with
  | Some e => [error_message (tick_node t) e]
  | None => []
  end.

(** The invocations that faulted in a node that has a recovery placeholder. *)
Definition recovered (t : Tick) : bool :=
  (negb (completed t) && negb (NodeName_eqb (tick_node t) reflection_agent))%bool.

(** [s'] holds the results, errors and history of [s], followed by more. *)
Definition extends (s s' : AgentState) : Prop :=
  (exists rs, results s' = results s ++ rs) /\
  (exists es, errors s' = errors s ++ es) /\
  (exists hs, history s' = history s ++ hs).

(** The two sources the research node cites. *)
Definition research_sources : list string :=
  ["research_source_1"; "research_source_2"].

(* ================================================================= *)
(** ** More of Python: integers as text, ranges, slices, lengths *)

Module Py.

(** [str(i)] for an [int], as an f-string renders it. *)
Definition str_of_int (i : Z) : string := NilZero.string_of_int (Z.to_int i).

(** [range(a, b)] *)
Definition range (a b : Z) : list Z :=
  map (fun k => a + Z.of_nat k) (seq 0 (Z.to_nat (b - a))).

(** [xs[:k]]: the first [k] elements, or all but the last [-k] when [k] is
    negative. *)
Definition slice_to {A : Type} (xs : list A) (k : Z) : list A :=
  if k <? 0 then firstn (Z.to_nat (Z.of_nat (length xs) + k)) xs
  else firstn (Z.to_nat k) xs.

(** A byte that continues a UTF-8 sequence: [10xxxxxx]. *)
Definition is_continuation (c : ascii) : bool :=
  let n := nat_of_ascii c in (Nat.leb 128 n && Nat.ltb n 192)%bool.

(** [len(s)]: the number of code points, which in UTF-8 is the number of
    bytes that do not continue a sequence. *)
Fixpoint len (s : string) : nat :=
  match s with
  | EmptyString => 0
  | String c s' => ((if is_continuation c then 0 else 1) + len s')%nat
  end.

(** [enumerate(xs, start)] *)
Definition enumerate {A : Type} (xs : list A) (start : Z) : list (Z * A) :=
  combine (range start (start + Z.of_nat (length xs))) xs.

(** [float(n)] for a length [n]. *)
Definition float_of_len (n : nat) : PrimFloat.float :=
  PrimFloat.of_uint63 (Uint63.of_nat n).

(** [min(a, b)] and [max(a, b)] on floats: the first argument unless the
    second is strictly smaller (larger). *)
Definition min (a b : PrimFloat.float) : PrimFloat.float :=
  if PrimFloat.ltb b a then b else a.

Definition max (a b : PrimFloat.float) : PrimFloat.float :=
  if PrimFloat.ltb a b then b else a.

End Py.

(* ================================================================= *)
(** ** The planning agent ([planning_agent.py]) *)

Module PlanningAgent.

(** [class PlanStep(BaseModel)]; [step_id] is the field [id]. *)
Record PlanStep : Set := mkPlanStep {
  step_id : string;
  step_title : string;
  step_description : string;
  dependencies : list string;
  estimated_effort : string
}.

(** [class Plan(BaseModel)] *)
Record Plan : Set := mkPlan {
  title : string;
  description : string;
  steps : list PlanStep;
  constraints : list string;
  assumptions : list string
}.

(** [class PlanningAgentConfig(BaseModel)] *)
Record PlanningAgentConfig : Set := mkPlanningConfig {
  max_steps : Z;
  detail_level : string;
  include_constraints : bool;
  include_assumptions : bool
}.

(** [_extract_constraints] *)
Definition _extract_constraints (query additional_context : string) : list string :=
  [ "Constraint 1: Must be completed within the specified timeframe";
    "Constraint 2: Must use existing infrastructure";
    "Constraint 3: Must be compatible with current systems" ].

(** [_extract_assumptions] *)
Definition _extract_assumptions (query additional_context : string) : list string :=
  [ "Assumption 1: The current system is stable";
    "Assumption 2: Required resources are available";
    "Assumption 3: No major changes to requirements will occur during implementation" ].

(** [plan.steps.append(step)] *)
Definition append_step (step : PlanStep) (plan : Plan) : Plan :=
  mkPlan (title plan) (description plan) (steps plan ++ [step])
         (constraints plan) (assumptions plan).

(** The step built in the [i]-th turn of the loop of [_create_plan]. *)
Definition make_step (query : string) (i : Z) : PlanStep :=
  mkPlanStep ("step_" ++ Py.str_of_int i)
             ("Step " ++ Py.str_of_int i)
             ("Description for step " ++ Py.str_of_int i
              ++ " of the plan for: " ++ query)
             (map (fun j => "step_" ++ Py.str_of_int j)%string
                  (filter (fun j => j mod 2 =? 0) (Py.range 1 i)))
             "medium".

(** [_create_plan] *)
Definition _create_plan (config : PlanningAgentConfig)
    (query additional_context : string) : Plan :=
  let constraints :=
    if include_constraints config
    then _extract_constraints query additional_context else [] in
  let assumptions :=
    if include_assumptions config
    then _extract_assumptions query additional_context else [] in
  let plan :=
    mkPlan ("Plan for: " ++ query)
           ("This plan addresses the following request: " ++ query)
           [] constraints assumptions in
  fold_left (fun plan i => append_step (make_step query i) plan)
            (Py.range 1 (Z.min 5 (max_steps config + 1)))
            plan.

(** The text added to a step title for its dependencies. *)
Definition dependencies_text (step : PlanStep) : string :=
  match dependencies step with
  | [] => EmptyString
  | deps => " (Depends on: " ++ PyStr.join ", " deps ++ ")"
  end.

(** The list [parts] of [_format_plan] when it is joined. *)
Definition plan_parts (plan : Plan) : list string :=
  let parts :=
    [ "# " ++ title plan;
      PyStr.nl ++ "## Description" ++ PyStr.nl ++ description plan ]%string in
  let parts :=
    match constraints plan with
    | [] => parts
    | cs => (parts ++ [PyStr.nl ++ "## Constraints"]%string)
            ++ map (fun c => "- " ++ c)%string cs
    end in
  let parts :=
    match assumptions plan with
    | [] => parts
    | asms => (parts ++ [PyStr.nl ++ "## Assumptions"]%string)
              ++ map (fun a => "- " ++ a)%string asms
    end in
  let parts := parts ++ [PyStr.nl ++ "## Implementation Steps"]%string in
  fold_left
    (fun parts step =>
       parts ++ [ PyStr.nl ++ "### " ++ step_title step ++ dependencies_text step;
                  "**Effort**: " ++ estimated_effort step;
                  PyStr.nl ++ step_description step ]%string)
    (steps plan) parts.

(** [_format_plan] *)
Definition _format_plan (plan : Plan) : string :=
  PyStr.join PyStr.nl (plan_parts plan).

(** [run] *)
Definition run (config : PlanningAgentConfig) (ctx : ChatContext)
  : ChatAgentResponse :=
  let plan := _create_plan config (ctx_query ctx) (ctx_additional_context ctx) in
  mkResponse (_format_plan plan) [] [].

(** [run_stream]: the responses yielded. *)
Definition run_stream (config : PlanningAgentConfig) (ctx : ChatContext)
  : list ChatAgentResponse :=
  let plan := _create_plan config (ctx_query ctx) (ctx_additional_context ctx) in
  [mkResponse (_format_plan plan) [] []].

End PlanningAgent.

(* ================================================================= *)
(** ** The research agent ([research_agent.py]) *)

(** A Python [float] is an IEEE 754 binary64 number, as is a primitive
    float here; a decimal literal denotes the nearest such number in both. *)

Module ResearchAgent.

Import PrimFloat.

(** [class ResearchResult(BaseModel)] *)
Record ResearchResult : Set := mkResearchResult {
  content : string;
  source : string;
  relevance_score : PrimFloat.float
}.

(** [class ResearchAgentConfig(BaseModel)] *)
Record ResearchAgentConfig : Set := mkResearchConfig {
  max_sources : Z;
  min_relevance_score : PrimFloat.float;
  search_depth : Z;
  include_web_search : bool;
  include_code_search : bool;
  include_documentation : bool
}.

(** [_perform_web_search] *)
Definition _perform_web_search (query : string) : list ResearchResult :=
  [ mkResearchResult ("Web search result 1 for query: " ++ query)
                     "web_search_1" 0.9%float;
    mkResearchResult ("Web search result 2 for query: " ++ query)
                     "web_search_2" 0.8%float ].

(** [_perform_code_search] *)
Definition _perform_code_search (query project_id : string) : list ResearchResult :=
  [ mkResearchResult ("Code search result 1 for query: " ++ query)
                     "code_search_1" 0.85%float;
    mkResearchResult ("Code search result 2 for query: " ++ query)
                     "code_search_2" 0.75%float ].

(** [_perform_documentation_search] *)
Definition _perform_documentation_search (query project_id : string)
  : list ResearchResult :=
  [ mkResearchResult ("Documentation search result 1 for query: " ++ query)
                     "doc_search_1" 0.95%float;
    mkResearchResult ("Documentation search result 2 for query: " ++ query)
                     "doc_search_2" 0.85%float ].

(** [result.relevance_score >= self.config.min_relevance_score] *)
Definition relevant (config : ResearchAgentConfig) (r : ResearchResult) : bool :=
  PrimFloat.leb (min_relevance_score config) (relevance_score r).

(** The list [results] of [_gather_information] before it is filtered. *)
Definition candidates (config : ResearchAgentConfig) (ctx : ChatContext)
  : list ResearchResult :=
  let results := [] in
  let results :=
    if include_web_search config
    then results ++ _perform_web_search (ctx_query ctx) else results in
  let results :=
    if include_code_search config
    then results ++ _perform_code_search (ctx_query ctx) (ctx_project_id ctx)
    else results in
  if include_documentation config
  then results ++ _perform_documentation_search (ctx_query ctx) (ctx_project_id ctx)
  else results.

(** [_gather_information] *)
Definition _gather_information (config : ResearchAgentConfig) (ctx : ChatContext)
  : list ResearchResult :=
  let results := candidates config ctx in
  let filtered_results := filter (relevant config) results in
  Py.slice_to filtered_results (max_sources config).

Section Synthesis.

(** [sorted(results, key=lambda x: x.relevance_score, reverse=True)], the
    built-in sort, taken as it comes. *)
Variable sorted_by_relevance : list ResearchResult -> list ResearchResult.

(** The list [response_parts] of [_synthesize_results] when it is joined. *)
Definition response_parts (results : list ResearchResult) (query : string)
  : list string :=
  let sorted_results := sorted_by_relevance results in
  fold_left
    (fun parts ir =>
       parts ++ [ Py.str_of_int (fst ir) ++ ". " ++ content (snd ir)
                  ++ " (Source: " ++ source (snd ir) ++ ")" ]%string)
    (Py.enumerate sorted_results 1)
    [ ("Here's what I found about your query: " ++ query ++ PyStr.nl)%string ].

(** [_synthesize_results] *)
Definition _synthesize_results (results : list ResearchResult) (query : string)
  : string :=
  match results with
  | [] => "I couldn't find any relevant information for your query: " ++ query
  | _ => PyStr.join blank_line (response_parts results query)
  end.

(** [run] *)
Definition run (config : ResearchAgentConfig) (ctx : ChatContext)
  : ChatAgentResponse :=
  let results := _gather_information config ctx in
  let response := _synthesize_results results (ctx_query ctx) in
  let citations := map source results in
  mkResponse response [] citations.

(** [run_stream]: the responses yielded. *)
Definition run_stream (config : ResearchAgentConfig) (ctx : ChatContext)
  : list ChatAgentResponse :=
  let results := _gather_information config ctx in
  let response := _synthesize_results results (ctx_query ctx) in
  let citations := map source results in
  [mkResponse response [] citations].

End Synthesis.

End ResearchAgent.

(* ================================================================= *)
(** ** The reflection agent ([reflection_agent.py]) *)

Module ReflectionAgent.

Import PrimFloat.

(** [class ReflectionFeedback(BaseModel)] *)
Record ReflectionFeedback : Set := mkFeedback {
  quality_score : PrimFloat.float;
  strengths : list string;
  weaknesses : list string;
  improvement_suggestions : list string;
  needs_revision : bool
}.

(** [class ReflectionAgentConfig(BaseModel)] *)
Record ReflectionAgentConfig : Set := mkReflectionConfig {
  quality_threshold : PrimFloat.float;
  evaluation_criteria : list string;
  detailed_feedback : bool
}.

(** [_extract_content_to_reflect] *)
Definition _extract_content_to_reflect (history : list string) : string :=
  match last_of history with
  | None => "No content to reflect on."
  | Some message => message
  end.

(** One check of [_evaluate_content] on the three lists [strengths],
    [weaknesses] and [improvement_suggestions]: a failed check appends to
    the last two, a passed one to the first. *)
Definition check (failed : bool) (weakness suggestion strength : string)
    (lists : list string * list string * list string)
  : list string * list string * list string :=
  let '(strengths, weaknesses, improvement_suggestions) := lists in
  if failed
  then (strengths, weaknesses ++ [weakness], improvement_suggestions ++ [suggestion])
  else (strengths ++ [strength], weaknesses, improvement_suggestions).

(** [0.5 + (len(strengths) * 0.1) - (len(weaknesses) * 0.1)], clamped. *)
Definition score (strengths weaknesses : list string) : PrimFloat.float :=
  let quality_score :=
    PrimFloat.sub
      (PrimFloat.add 0.5%float
                     (PrimFloat.mul (Py.float_of_len (length strengths)) 0.1%float))
      (PrimFloat.mul (Py.float_of_len (length weaknesses)) 0.1%float) in
  Py.max 0.0%float (Py.min 1.0%float quality_score).

Section Agent.

(** [str.lower] on the texts at hand.  Content and query are arbitrary
    text, on which Python lower-cases every cased code point; the function
    is a parameter, and nothing is assumed of it. *)
Variable lower : string -> string.

(** The rendering [f"{x:.2f}"] of a float, a parameter as well. *)
Variable format_score : PrimFloat.float -> string.

Variable config : ReflectionAgentConfig.

(** The three lists of [_evaluate_content] after its four checks. *)
Definition evaluation_lists (content query : string)
  : list string * list string * list string :=
  let lists := ([], [], []) in
  let lists :=
    check (PyStr.contains "error" (lower content)
           || PyStr.contains "incorrect" (lower content))
          "The content contains errors or incorrect information."
          "Verify facts and correct any errors."
          "The content appears to be accurate." lists in
  let lists :=
    check (Nat.ltb (Py.len content) 100)
          "The content is too brief and may not be complete."
          "Expand the content to cover more aspects of the query."
          "The content is sufficiently detailed." lists in
  let lists :=
    check (PyStr.contains "unclear" (lower content)
           || PyStr.contains "confusing" (lower content))
          "Some parts of the content may be unclear or confusing."
          "Clarify ambiguous statements and use simpler language."
          "The content is clear and easy to understand." lists in
  check (negb (PyStr.contains (lower query) (lower content)))
        "The content may not directly address the query."
        "Ensure the content directly addresses the original query."
        "The content is relevant to the query." lists.

(** [_evaluate_content] *)
Definition _evaluate_content (content query : string) : ReflectionFeedback :=
  let '(strengths, weaknesses, improvement_suggestions) :=
    evaluation_lists content query in
  let quality_score := score strengths weaknesses in
  let needs_revision := PrimFloat.ltb quality_score (quality_threshold config) in
  mkFeedback quality_score strengths weaknesses improvement_suggestions
             needs_revision.

(** A heading followed by one item for each entry, when there is an entry. *)
Definition section (heading : string) (items : list string) : list string :=
  match items with
  | [] => []
  | _ => (PyStr.nl ++ heading)%string :: map (fun item => "- " ++ item)%string items
  end.

(** The list [parts] of [_format_feedback] when it is joined. *)
Definition feedback_parts (feedback : ReflectionFeedback) : list string :=
  let parts :=
    [ "# Reflection Feedback";
      PyStr.nl ++ "## Quality Score: " ++ format_score (quality_score feedback)
      ++ "/1.00";
      PyStr.nl ++ "**Needs Revision**: "
      ++ (if needs_revision feedback then "Yes" else "No") ]%string in
  let parts :=
    if detailed_feedback config then
      ((parts ++ section "## Strengths" (strengths feedback))
       ++ section "## Areas for Improvement" (weaknesses feedback))
      ++ section "## Suggestions" (improvement_suggestions feedback)
    else parts in
  if needs_revision feedback then
    parts ++ [ PyStr.nl ++ "## Next Steps";
               "Please revise the content based on the feedback above." ]%string
  else
    parts ++ [ PyStr.nl ++ "## Conclusion";
               "The content meets the quality threshold and is ready for use." ]%string.

(** [_format_feedback] *)
Definition _format_feedback (feedback : ReflectionFeedback) : string :=
  PyStr.join PyStr.nl (feedback_parts feedback).

(** [run] *)
Definition run (ctx : ChatContext) : ChatAgentResponse :=
  let content_to_reflect := _extract_content_to_reflect (ctx_history ctx) in
  let feedback := _evaluate_content content_to_reflect (ctx_query ctx) in
  mkResponse (_format_feedback feedback) [] [].

(** [run_stream]: the responses yielded. *)
Definition run_stream (ctx : ChatContext) : list ChatAgentResponse :=
  let content_to_reflect := _extract_content_to_reflect (ctx_history ctx) in
  let feedback := _evaluate_content content_to_reflect (ctx_query ctx) in
  [mkResponse (_format_feedback feedback) [] []].

End Agent.

End ReflectionAgent.

(* ================================================================= *)
(** ** The agent factory ([agent_factory.py]) *)

Module AgentFactory.

(** An element of the argument [agent_types]: a string or a member of the
    enumeration ([isinstance(at, str)]). *)
Inductive TypeArg : Set := Str (s : string) | Member (t : AgentType).

(** [AgentType(value)]: the member with this value, if there is one. *)
Definition AgentType_of_value (v : string) : option AgentType :=
  if String.eqb v "code" then Some CODE
  else if String.eqb v "research" then Some RESEARCH
  else if String.eqb v "planning" then Some PLANNING
  else if String.eqb v "reflection" then Some REFLECTION
  else None.

(** What creating an agent can raise: the [ValueError] of the enumeration
    for a string that is the value of no member, and the refusal of the
    graph library to compile the workflow. *)
Inductive Error : Set := InvalidAgentType (value : string) | InvalidWorkflow.

Inductive Result (A : Type) : Type := Ok (a : A) | Raise (e : Error).

Arguments Ok {A} a.
Arguments Raise {A} e.

(** [AgentType(at) if isinstance(at, str) else at] *)
Definition convert (at_ : TypeArg) : Result AgentType :=
  match at_ with
  | Str s =>
      match AgentType_of_value s with
      | Some t => Ok t
      | None => Raise (InvalidAgentType s)
      end
  | Member t => Ok t
  end.

(** The list comprehension over [agent_types]: the first element that
    cannot be converted ends it. *)
Fixpoint convert_all (agent_types : list TypeArg) : Result (list AgentType) :=
  match agent_types with
  | [] => Ok []
  | at_ :: rest =>
      match convert at_ with
      | Raise e => Raise e
      | Ok t =>
          match convert_all rest with
          | Raise e => Raise e
          | Ok ts => Ok (t :: ts)
          end
      end
  end.

(** A [DefaultIntegratedAgent]: its configuration and compiled workflow. *)
Record IntegratedAgent : Type := mkAgent {
  agent_config : IntegratedAgentConfig;
  workflow : StateGraph
}.

(** [DefaultIntegratedAgent(config=config)]: [__init__] keeps the
    configuration and builds the workflow. *)
Definition DefaultIntegratedAgent (config : IntegratedAgentConfig)
  : Result IntegratedAgent :=
  match compile (_build_workflow config) with
  | Some g => Ok (mkAgent config g)
  | None => Raise InvalidWorkflow
  end.

(** [AgentWithInfo] *)
Record AgentWithInfo : Type := mkAgentWithInfo {
  agent : IntegratedAgent;
  id : string;
  name : string;
  description : string
}.

(** [create_integrated_agent]; an argument left out, or given as [None], is
    [None] here. *)
Definition create_integrated_agent (agent_types : option (list TypeArg))
    (max_iterations : Z) (reflection_enabled : bool) (fault_tolerance_level : Z)
    (tools : option (list string))
    (agent_id agent_name agent_description : string) : Result AgentWithInfo :=
  let converted :=
    match agent_types with
    | Some (at_ :: rest) => convert_all (at_ :: rest)
    | Some [] => Ok []
    | None => Ok []
    end in
  match converted with
  | Raise e => Raise e
  | Ok agent_types =>
      let config :=
        mkConfig max_iterations
                 (match agent_types with [] => [CODE] | _ => agent_types end)
                 reflection_enabled fault_tolerance_level
                 (match tools with Some (t :: ts) => t :: ts | _ => [] end) in
      match DefaultIntegratedAgent config with
      | Raise e => Raise e
      | Ok agent => Ok (mkAgentWithInfo agent agent_id agent_name agent_description)
      end
  end.

End AgentFactory.

(* ================================================================= *)
(** ** Properties of the string operations *)

Module PyStrFacts.
Import PyStr.

Lemma startswith_iff (p s : string) :
  startswith p s = true <-> exists post, s = (p ++ post)%string.
Proof.
  revert s; induction p as [|a p IH]; intros s; simpl.
  - split; [intros _; now exists s | reflexivity].
  - destruct s as [|b s].
    + split; [discriminate | intros [post H]; discriminate].
    + rewrite andb_true_iff, Ascii.eqb_eq, IH. split.
      * intros [-> [post ->]]. now exists post.
      * intros [post H]. injection H as -> ->. split; [reflexivity | now exists post].
Qed.

Lemma contains_iff (kw s : string) : contains kw s = true <-> occurs kw s.
Proof.
  unfold occurs. induction s as [|c s IH].
  - simpl. rewrite orb_false_r, startswith_iff. split.
    + intros [post H]. now exists EmptyString, post.
    + intros [pre [post H]]. destruct pre; [now exists post | discriminate].
  - cbn [contains]. rewrite orb_true_iff, startswith_iff, IH. split.
    + intros [[post H] | [pre [post H]]].
      * now exists EmptyString, post.
      * exists (String c pre), post. simpl. now rewrite H.
    + intros [pre [post H]]. destruct pre as [|d pre].
      * left. now exists post.
      * right. simpl in H. injection H as _ H. now exists pre, post.
Qed.

Lemma any_in_iff (kws : list string) (s : string) :
  any_in kws s = true <-> exists kw, In kw kws /\ occurs kw s.
Proof.
  unfold any_in. rewrite existsb_exists.
  split; intros [kw [Hin H]]; exists kw; split; auto; now apply contains_iff.
Qed.

Lemma any_in_false (kws : list string) (s : string) :
  any_in kws s = false <-> ~ exists kw, In kw kws /\ occurs kw s.
Proof.
  rewrite <- any_in_iff. destruct (any_in kws s); intuition congruence.
Qed.

End PyStrFacts.

Lemma last_of_snoc {A : Type} (xs : list A) (x : A) : last_of (xs ++ [x]) = Some x.
Proof. unfold last_of. now rewrite rev_app_distr. Qed.

(* ================================================================= *)
(** ** The error classifier *)

Lemma classify_error_range (error : string) :
  _classify_error error = "code" \/ _classify_error error = "research"
  \/ _classify_error error = "planning".
Proof.
  unfold _classify_error.
  destruct (PyStr.any_in code_keywords _); auto.
  destruct (PyStr.any_in research_keywords _); auto.
  destruct (PyStr.any_in planning_keywords _); auto.
Qed.

(** C5.  The classifier is a total function of the message that depends on
    it only through its lower-cased form; the code vocabulary is tried
    first, then the research one, then the planning one, the first that has
    a keyword occurring in the message deciding the answer, and the answer
    is "code" when no keyword occurs; the four sample messages are
    classified as code, research, planning and code. *)
Theorem C5_classify_error :
  (forall error,
      (mentions code_keywords error -> _classify_error error = "code") /\
      (~ mentions code_keywords error -> mentions research_keywords error ->
       _classify_error error = "research") /\
      (~ mentions code_keywords error -> ~ mentions research_keywords error ->
       mentions planning_keywords error -> _classify_error error = "planning") /\
      (~ mentions code_keywords error -> ~ mentions research_keywords error ->
       ~ mentions planning_keywords error -> _classify_error error = "code")) /\
  (forall e1 e2, PyStr.lower e1 = PyStr.lower e2 ->
                 _classify_error e1 = _classify_error e2) /\
  _classify_error "a syntax error occurred" = "code" /\
  _classify_error "missing information" = "research" /\
  _classify_error "wrong strategy" = "planning" /\
  _classify_error "xyz" = "code".
Proof.
  split; [|split; [|repeat split; reflexivity]].
  - intros error. unfold mentions, _classify_error.
    repeat split.
    + intros H. apply PyStrFacts.any_in_iff in H. now rewrite H.
    + intros Hc Hr. apply PyStrFacts.any_in_false in Hc.
      apply PyStrFacts.any_in_iff in Hr. now rewrite Hc, Hr.
    + intros Hc Hr Hp. apply PyStrFacts.any_in_false in Hc, Hr.
      apply PyStrFacts.any_in_iff in Hp. now rewrite Hc, Hr, Hp.
    + intros Hc Hr Hp. apply PyStrFacts.any_in_false in Hc, Hr, Hp.
      now rewrite Hc, Hr, Hp.
  - intros e1 e2 H. unfold _classify_error. now rewrite H.
Qed.

Lemma C5_classify_error_witness :
  _classify_error "Missing DATA" = "research".
Proof.
  apply (proj1 C5_classify_error "Missing DATA").
  - apply PyStrFacts.any_in_false. reflexivity.
  - apply PyStrFacts.any_in_iff. reflexivity.
Defined.

(* ================================================================= *)
(** ** The reflection router *)

Lemma role_of_value_inv (v : string) (r : AgentType) :
  role_of_value v = Some r -> v = AgentType_value r.
Proof.
  unfold role_of_value.
  destruct (String.eqb_spec v "code"); [intros [= <-]; assumption|].
  destruct (String.eqb_spec v "research"); [intros [= <-]; assumption|].
  destruct (String.eqb_spec v "planning"); [intros [= <-]; assumption|].
  destruct (String.eqb_spec v "reflection"); [intros [= <-]; assumption|].
  discriminate.
Qed.

Lemma router_follows_policy (config : IntegratedAgentConfig) (state : AgentState) :
  _reflection_router config state = answer_of (route_policy config state).
Proof.
  unfold _reflection_router, route_policy.
  destruct (remaining_steps state <=? 0); [reflexivity|].
  destruct (last_of (errors state)) as [e|]; [|reflexivity].
  destruct (classify_error_range e) as [H | [H | H]]; rewrite H; cbn;
    match goal with |- context [has_type ?c ?r] => destruct (has_type c r) end;
    reflexivity.
Qed.

Lemma reflection_ends_policy (config : IntegratedAgentConfig) (state : AgentState) :
  lookup_key (_reflection_router config state) (reflection_ends config)
  = Some (target_of (route_policy config state)).
Proof.
  rewrite router_follows_policy. unfold route_policy.
  destruct (remaining_steps state <=? 0); [reflexivity|].
  destruct (last_of (errors state)) as [e|]; [|reflexivity].
  destruct (classify_error_range e) as [H | [H | H]]; rewrite H; cbn;
    match goal with |- context [has_type ?c ?r] => destruct (has_type c r) eqn:E end;
    cbn; rewrite ?E; reflexivity.
Qed.

(** C4.  The router answers "end" whenever the remaining budget is not
    positive, whatever the errors are.  In general its answer is the one of
    the stated policy: with budget left and a most recent error, the role
    the classifier gives if that role is enabled, and "end" in every other
    case.  In the table of the conditional edge the answer leads to the
    node of that role, and the entry of a role that is not enabled leads to
    the end of the run. *)
Theorem C4_reflection_router (config : IntegratedAgentConfig) (state : AgentState) :
  (remaining_steps state <= 0 -> _reflection_router config state = "end") /\
  _reflection_router config state = answer_of (route_policy config state) /\
  (forall role,
      route_policy config state = GoTo role <->
      0 < remaining_steps state /\
      (exists e, last_of (errors state) = Some e /\
                 _classify_error e = AgentType_value role) /\
      has_type config role = true) /\
  lookup_key (_reflection_router config state) (reflection_ends config)
  = Some (target_of (route_policy config state)) /\
  (forall role, role <> REFLECTION ->
      lookup_key (AgentType_value role) (reflection_ends config)
      = Some (if has_type config role then Node (node_of_role role) else END)).
Proof.
  split; [|split; [|split; [|split]]].
  - intros H. unfold _reflection_router.
    destruct (Z.leb_spec (remaining_steps state) 0); [reflexivity | lia].
  - apply router_follows_policy.
  - intros role. unfold route_policy.
    destruct (Z.leb_spec (remaining_steps state) 0) as [Hr | Hr].
    + split; [discriminate | intros [H _]; lia].
    + destruct (last_of (errors state)) as [e|].
      * destruct (role_of_value (_classify_error e)) as [r|] eqn:Hv.
        -- apply role_of_value_inv in Hv.
           destruct (has_type config r) eqn:Hh; split.
           ++ intros [= <-]. split; [assumption|]. split; [now exists e | assumption].
           ++ intros [_ [[e' [[= <-] Hc]] _]]. rewrite Hv in Hc.
              destruct r, role; try discriminate; reflexivity.
           ++ discriminate.
           ++ intros [_ [[e' [[= <-] Hc]] Hrole]]. rewrite Hv in Hc.
              destruct r, role; try discriminate; congruence.
        -- split; [discriminate|].
           intros [_ [[e' [[= <-] Hc]] _]]. rewrite Hc in Hv.
           destruct role; discriminate.
      * split; [discriminate | intros [_ [[e' [H _]] _]]; discriminate].
  - apply reflection_ends_policy.
  - intros role Hrole. destruct role; try congruence; cbn;
      match goal with |- context [has_type ?c ?r] => destruct (has_type c r) end;
      reflexivity.
Qed.

Lemma C4_reflection_router_witness :
  _reflection_router
    (mkConfig 5 [CODE] true 2 [])
    (mkState "q" (mkContext "p" "a" [] [] "x") [] ["a syntax error occurred"]
             0 "reflection_agent" [])
  = "end".
Proof.
  apply (proj1 (C4_reflection_router _ _)). simpl. lia.
Defined.

(* ================================================================= *)
(** ** Response assembly *)

Lemma response_parts_from (rs : list ResultEntry) (parts : list string) :
  fold_left
    (fun parts r => if PyStr.truthy (content r) then parts ++ [content r] else parts)
    rs parts
  = parts ++ filter PyStr.truthy (map content rs).
Proof.
  revert parts; induction rs as [|r rs IH]; intros parts; simpl.
  - now rewrite app_nil_r.
  - rewrite IH. destruct (PyStr.truthy (content r)); [|reflexivity].
    now rewrite <- app_assoc.
Qed.

Lemma response_parts_filter (rs : list ResultEntry) :
  response_parts rs = filter PyStr.truthy (map content rs).
Proof. unfold response_parts. now rewrite response_parts_from. Qed.

(** C7.  The text of a response is the fixed message when the state has no
    results, and otherwise the contents of the results that are not empty,
    in the order of the results, joined by a blank line. *)
Theorem C7_format_response (state : AgentState) :
  _format_response state = text_of_results (results state) /\
  (results state = [] -> _format_response state = no_results_message) /\
  (results state <> [] ->
   _format_response state
   = PyStr.join blank_line (filter PyStr.truthy (map content (results state)))).
Proof.
  unfold _format_response, text_of_results.
  destruct (results state) as [|r rs] eqn:E.
  - repeat split; congruence.
  - rewrite response_parts_filter. repeat split; congruence.
Qed.

Lemma C7_format_response_witness :
  _format_response
    (mkState "q" (mkContext "p" "a" [] [] "x")
             [mkResult "one" []; mkResult EmptyString ["c"]; mkResult "two" []]
             [] 2 "code_agent" [])
  = ("one" ++ blank_line ++ "two")%string.
Proof.
  rewrite (proj2 (proj2 (C7_format_response _))).
  - reflexivity.
  - simpl. discriminate.
Defined.

(* ================================================================= *)
(** ** One node invocation *)

(** What an invocation whose logic faults does to each field. *)
Lemma node_action_fault (config : IntegratedAgentConfig) (n : NodeName)
    (e : string) (s : AgentState) :
  node_action config n (Some e) s
  = mkState (query s) (context s)
            (results s ++
             match recovery_placeholder n with
             | Some r => if fault_tolerance_level config >=? 2 then [r] else []
             | None => []
             end)
            (errors s ++ [error_message n e])
            (remaining_steps s) (node_name n) (history s).
Proof.
  destruct n; cbn; unfold recovering_except, reflection_except;
    try destruct (fault_tolerance_level config >=? 2); cbn;
    rewrite ?app_nil_r; reflexivity.
Qed.

(** What an invocation whose logic completes does to each field. *)
Lemma node_action_success (config : IntegratedAgentConfig) (n : NodeName)
    (s : AgentState) :
  exists r,
    node_action config n None s
    = mkState (query s) (context s) (results s ++ [r]) (errors s)
              (remaining_steps s - 1) (node_name n)
              (history s ++ [mkHistory (node_name n) r []]).
Proof. destruct n; cbn; eexists; reflexivity. Qed.

(** C2 fails for the reflection node: at fault tolerance level 2 its
    faulted invocation leaves [results] as it was. *)
Lemma C2_reflection_counterexample :
  let config := mkConfig 5 [CODE] true 2 [] in
  let s := mkState "q" (mkContext "p" "a" [] [] "x") [] [] 5 "code_agent" [] in
  fault_tolerance_level config >= 2 /\
  results (node_action config reflection_agent (Some "boom") s) = results s /\
  ~ (exists r, results (node_action config reflection_agent (Some "boom") s)
               = results s ++ [r]).
Proof.
  cbn. repeat split; [lia|]. intros [r H]. discriminate.
Qed.

(** C2, amended.  A faulted invocation of the code, research or planning
    node appends exactly one entry to [results], the node's recovery
    placeholder, when the fault tolerance level is at least 2, and appends
    nothing when it is below 2; a faulted invocation of the reflection node
    appends nothing at any level. *)
Theorem C2_recovery_placeholder (config : IntegratedAgentConfig) (n : NodeName)
    (e : string) (s : AgentState) :
  results (node_action config n (Some e) s)
  = results s ++
    match recovery_placeholder n with
    | Some placeholder =>
        if fault_tolerance_level config >=? 2 then [placeholder] else []
    | None => []
    end
  /\ (match recovery_placeholder n with Some _ => true | None => false end
      = negb (NodeName_eqb n reflection_agent)).
Proof.
  rewrite node_action_fault. split; [reflexivity|].
  destruct n; reflexivity.
Qed.

(** C8.  No node invocation, completed or faulted, changes [query] or
    [context]; hence every state of a run carries those of the initial
    state. *)
Theorem C8_query_context_frame :
  (forall config n outcome s,
      query (node_action config n outcome s) = query s /\
      context (node_action config n outcome s) = context s) /\
  (forall config limit oracle ctx,
      Forall (fun t => query (tick_state t) = ctx_query ctx /\
                       context (tick_state t) = context (initial_state config ctx))
             (run_ticks config limit oracle ctx)).
Proof.
  assert (frame : forall config n outcome s,
             query (node_action config n outcome s) = query s /\
             context (node_action config n outcome s) = context s).
  { intros config n [e|] s.
    - rewrite node_action_fault. split; reflexivity.
    - destruct (node_action_success config n s) as [r ->]. split; reflexivity. }
  split; [exact frame|].
  intros config limit oracle ctx. unfold run_ticks.
  destruct (compile (_build_workflow config)) as [g|]; [|constructor].
  assert (gen : forall limit i cur s,
             Forall (fun t => query (tick_state t) = query s /\
                              context (tick_state t) = context s)
                    (astream config g oracle limit i cur s)).
  { clear limit. intros limit. induction limit as [|limit IH]; intros i cur s.
    - destruct cur; constructor.
    - destruct cur as [|n]; [constructor|]. cbn [astream].
      destruct (frame config n (oracle i n) s) as [Hq Hc].
      constructor; [split; assumption|].
      rewrite <- Hq, <- Hc. apply IH. }
  exact (gen limit 0%nat (entry_target g) (initial_state config ctx)).
Qed.

(** C9.  A faulted invocation leaves [remaining_steps] and [history] as
    they were.  Its [except] block changes no field but [errors], which
    gains the error message, and [results], which gains the recovery
    placeholder when the node is not the reflection node and the fault
    tolerance level is at least 2, and is unchanged otherwise.  (The node
    name is written to [current_agent] before the [try] block is entered.) *)
Theorem C9_fault_path (config : IntegratedAgentConfig) (n : NodeName)
    (e : string) (s : AgentState) :
  remaining_steps (node_action config n (Some e) s) = remaining_steps s /\
  history (node_action config n (Some e) s) = history s /\
  node_action config n (Some e) s
  = except_block config n e (set_current_agent (node_name n) s) /\
  (forall s0,
      except_block config n e s0
      = mkState (query s0) (context s0)
                (results (except_block config n e s0))
                (errors s0 ++ [error_message n e])
                (remaining_steps s0) (current_agent s0) (history s0)) /\
  (forall s0,
      results (except_block config n e s0)
      = if (fault_tolerance_level config >=? 2) && negb (NodeName_eqb n reflection_agent)
        then results s0 ++ match recovery_placeholder n with
                           | Some r => [r]
                           | None => []
                           end
        else results s0).
Proof.
  split; [now rewrite node_action_fault|].
  split; [now rewrite node_action_fault|].
  repeat split.
  - destruct n; reflexivity.
  - intros s0. destruct n; cbn; unfold recovering_except, reflection_except;
      try destruct (fault_tolerance_level config >=? 2); reflexivity.
  - intros s0. destruct n; cbn; unfold recovering_except, reflection_except;
      destruct (fault_tolerance_level config >=? 2); reflexivity.
Qed.

(* ================================================================= *)
(** ** Runs: the synchronous and the streaming entry point *)

Lemma compile_inv (g g' : StateGraph) :
  compile g = Some g' -> g' = g /\ exists n, entry_point g = Some n.
Proof.
  unfold compile. destruct (entry_point g) as [n|]; [|discriminate].
  match goal with |- context [if ?b then _ else _] => destruct b end;
    [|discriminate].
  intros [= <-]. split; [reflexivity | now exists n].
Qed.

Lemma last_cons {A : Type} (xs : list A) (x d : A) :
  last (x :: xs) d = last xs x.
Proof.
  revert x d; induction xs as [|y ys IH]; intros x d; [reflexivity|].
  change (last (x :: y :: ys) d) with (last (y :: ys) d).
  now rewrite !IH.
Qed.

Section RuntimeFacts.

Variable config : IntegratedAgentConfig.
Variable g : StateGraph.
Variable oracle : Oracle.

(** [invoke] makes the invocations [astream] reports, and returns the
    state of the last of them. *)
Lemma invoke_astream (limit : nat) :
  forall i cur s,
    fst (invoke config g oracle limit i cur s)
    = length (astream config g oracle limit i cur s) /\
    match snd (invoke config g oracle limit i cur s) with
    | Some final =>
        final = last (map tick_state (astream config g oracle limit i cur s)) s
    | None => True
    end.
Proof.
  induction limit as [|limit IH]; intros i cur s.
  - destruct cur; cbn; auto.
  - destruct cur as [|n]; [cbn; auto|].
    cbn [invoke astream].
    set (s' := node_action config n (oracle i n) s).
    specialize (IH (S i) (next_node g n s') s').
    destruct (invoke config g oracle limit (S i) (next_node g n s') s')
      as [k final].
    cbn [fst snd] in *. destruct IH as [Hk Hfinal].
    split; [cbn; now rewrite Hk|].
    destruct final as [final|]; [|exact I].
    rewrite Hfinal. cbn [map tick_state]. now rewrite last_cons.
Qed.

(** A run that starts at a node and returns has made an invocation. *)
Lemma invoke_at_node (limit i : nat) (n : NodeName) (s final : AgentState) :
  snd (invoke config g oracle limit i (Node n) s) = Some final ->
  astream config g oracle limit i (Node n) s <> [].
Proof.
  destruct limit as [|limit]; cbn [invoke astream]; [discriminate|].
  intros _. discriminate.
Qed.

End RuntimeFacts.

Lemma last_of_last {A : Type} (xs : list A) (d : A) :
  xs <> [] -> last_of xs = Some (last xs d).
Proof.
  intros H. destruct (exists_last H) as [ys [y ->]].
  now rewrite last_of_snoc, last_last.
Qed.

Lemma last_of_map {A B : Type} (f : A -> B) (xs : list A) :
  last_of (map f xs) = option_map f (last_of xs).
Proof.
  unfold last_of. rewrite <- map_rev. now destruct (rev xs).
Qed.

(** The state [run] gets back is the state of the last invocation. *)
Lemma run_state_last_tick (config : IntegratedAgentConfig) (limit : nat)
    (oracle : Oracle) (ctx : ChatContext) (final : AgentState) :
  snd (run_state config limit oracle ctx) = Some final ->
  option_map tick_state (last_of (run_ticks config limit oracle ctx)) = Some final.
Proof.
  unfold run_ticks, run_state.
  destruct (compile (_build_workflow config)) as [g|] eqn:Hc; [|discriminate].
  destruct (compile_inv _ _ Hc) as [-> [n Hn]].
  unfold entry_target. rewrite Hn. intros Hs.
  destruct (invoke_astream config (_build_workflow config) oracle limit 0
                           (Node n) (initial_state config ctx)) as [_ Hfinal].
  rewrite Hs in Hfinal. apply invoke_at_node in Hs.
  rewrite <- last_of_map, Hfinal.
  apply last_of_last. now destruct (astream _ _ _ _ _ _ _).
Qed.

Lemma last_of_In {A : Type} (xs : list A) (x : A) : last_of xs = Some x -> In x xs.
Proof.
  unfold last_of. intros H. apply in_rev.
  destruct (rev xs); [discriminate|]. injection H as ->. now left.
Qed.

(** On a state the three functions read what [run] renders. *)
Lemma response_of_state (s : AgentState) :
  response_of (readings_of_state s) = to_chat_response s.
Proof.
  unfold response_of, to_chat_response, format_response_of, _format_response,
    extract_tool_calls_of, _extract_tool_calls, extract_citations_of,
    _extract_citations.
  cbn. now destruct (results s).
Qed.

(** An event is rendered as a dictionary without results and history. *)
Lemma response_of_event (e : StreamEvent) :
  response_of (readings_of_event e) = mkResponse no_results_message [] [].
Proof. reflexivity. Qed.

Lemma run_stream_length (config : IntegratedAgentConfig) (limit : nat)
    (oracle : Oracle) (ctx : ChatContext) :
  length (run_stream config limit oracle ctx)
  = length (run_ticks config limit oracle ctx).
Proof. unfold run_stream, run_events. now rewrite !length_map. Qed.

Lemma run_stream_elements (config : IntegratedAgentConfig) (limit : nat)
    (oracle : Oracle) (ctx : ChatContext) :
  Forall (fun r => r = mkResponse no_results_message [] [])
         (run_stream config limit oracle ctx).
Proof.
  unfold run_stream. apply Forall_map, Forall_forall.
  intros e _. apply response_of_event.
Qed.

(** C3.  [run_stream] yields one response for each node invocation, as many
    as [run] makes invocations, and the last event carries the state [run]
    gets back.  But the response is made from the event, not from the
    state in it: every response of the stream is the message that no
    results were produced, with no tool call and no citation.  In the
    scenario without faults [run] returns the four contents joined, and
    the last response of the stream is not that response. *)
Theorem C3_run_stream_renders_events :
  (forall config limit oracle ctx,
      length (run_stream config limit oracle ctx)
      = fst (run_state config limit oracle ctx) /\
      match snd (run_state config limit oracle ctx) with
      | Some final =>
          option_map event_update (last_of (run_events config limit oracle ctx))
          = Some final
      | None => True
      end /\
      Forall (fun r => r = mkResponse no_results_message [] [])
             (run_stream config limit oracle ctx)) /\
  option_map response (run scenario_config 25 no_fault login_request)
  = Some (PyStr.join blank_line
            [ "Planning agent processed query: build a login page";
              "Research agent processed query: build a login page";
              "Code agent processed query: build a login page";
              "Reflection agent reviewed the results and found them satisfactory." ]) /\
  last_of (run_stream scenario_config 25 no_fault login_request)
  = Some (mkResponse no_results_message [] []) /\
  last_of (run_stream scenario_config 25 no_fault login_request)
  <> run scenario_config 25 no_fault login_request.
Proof.
  split; [|split; [reflexivity | split; [reflexivity | discriminate]]].
  intros config limit oracle ctx. split; [|split].
  - rewrite run_stream_length. unfold run_ticks, run_state.
    destruct (compile (_build_workflow config)) as [g|]; [|reflexivity].
    symmetry. apply invoke_astream.
  - destruct (snd (run_state config limit oracle ctx)) as [final|] eqn:Hs;
      [|exact I].
    apply run_state_last_tick in Hs. unfold run_events.
    rewrite last_of_map.
    destruct (last_of (run_ticks config limit oracle ctx)) as [t|];
      [|discriminate].
    cbn in Hs |- *. exact Hs.
  - apply run_stream_elements.
Qed.

(* ================================================================= *)
(** ** Tool calls *)

Lemma extract_tool_calls_none (s : AgentState) :
  no_tool_calls s -> _extract_tool_calls s = [].
Proof.
  unfold no_tool_calls, _extract_tool_calls.
  generalize (@nil ToolCallResponse) as called.
  induction (history s) as [|h hs IH]; intros called H; [reflexivity|].
  inversion H as [|? ? Hh Hhs]; subst. cbn [fold_left]. rewrite Hh.
  now apply IH.
Qed.

Lemma node_action_no_tool_calls (config : IntegratedAgentConfig) (n : NodeName)
    (outcome : Outcome) (s : AgentState) :
  no_tool_calls s -> no_tool_calls (node_action config n outcome s).
Proof.
  unfold no_tool_calls. intros H. destruct outcome as [e|].
  - now rewrite node_action_fault.
  - destruct (node_action_success config n s) as [r ->]. cbn [history].
    apply Forall_app. split; [assumption|]. now constructor.
Qed.

Lemma astream_no_tool_calls (config : IntegratedAgentConfig) (g : StateGraph)
    (oracle : Oracle) (limit : nat) :
  forall i cur s,
    no_tool_calls s ->
    Forall (fun t => no_tool_calls (tick_state t))
           (astream config g oracle limit i cur s).
Proof.
  induction limit as [|limit IH]; intros i cur s H.
  - destruct cur; constructor.
  - destruct cur as [|n]; [constructor|]. cbn [astream].
    pose proof (node_action_no_tool_calls config n (oracle i n) s H) as H'.
    constructor; [exact H'|]. now apply IH.
Qed.

Lemma run_ticks_no_tool_calls (config : IntegratedAgentConfig) (limit : nat)
    (oracle : Oracle) (ctx : ChatContext) :
  Forall (fun t => no_tool_calls (tick_state t)) (run_ticks config limit oracle ctx).
Proof.
  unfold run_ticks. destruct (compile (_build_workflow config)); [|constructor].
  apply astream_no_tool_calls. constructor.
Qed.

(** C10.  In every run, whatever the configuration, the request and the
    faults, no history entry of any state records a tool call; so every
    response yielded by [run_stream], and the response of [run] when it
    returns one, has an empty list of tool calls. *)
Theorem C10_no_tool_calls (config : IntegratedAgentConfig) (limit : nat)
    (oracle : Oracle) (ctx : ChatContext) :
  Forall (fun t => Forall (fun h => tool_calls h = []) (history (tick_state t)))
         (run_ticks config limit oracle ctx) /\
  Forall (fun r => resp_tool_calls r = []) (run_stream config limit oracle ctx) /\
  match run config limit oracle ctx with
  | Some r => resp_tool_calls r = []
  | None => True
  end.
Proof.
  pose proof (run_ticks_no_tool_calls config limit oracle ctx) as H.
  split; [exact H|]. split.
  - eapply Forall_impl; [|apply run_stream_elements].
    intros r ->. reflexivity.
  - unfold run.
    destruct (snd (run_state config limit oracle ctx)) as [final|] eqn:Hs;
      [|exact I].
    cbn. apply extract_tool_calls_none.
    apply run_state_last_tick in Hs.
    destruct (last_of (run_ticks config limit oracle ctx)) as [t|] eqn:Ht;
      [|discriminate].
    injection Hs as <-. apply last_of_In in Ht.
    rewrite Forall_forall in H. now apply H.
Qed.

(* ================================================================= *)
(** ** The shape of the graph and the budget *)

Ltac split_config config :=
  destruct (has_type config CODE) eqn:?;
  destruct (has_type config RESEARCH) eqn:?;
  destruct (has_type config PLANNING) eqn:?;
  destruct (reflection_enabled config) eqn:?.

(** Off the reflection node the edges lead down the path, or out. *)
Lemma next_node_path (config : IntegratedAgentConfig) (n : NodeName)
    (s : AgentState) :
  n <> reflection_agent ->
  match next_node (_build_workflow config) n s with
  | END => True
  | Node m => (rank m < rank n)%nat
  end.
Proof.
  intros Hn. unfold next_node, _build_workflow, _add_workflow_edges.
  split_config config; destruct n; cbn; try exact I; try lia; congruence.
Qed.

(** The conditional edge is the only way out of the reflection node. *)
Lemma reflection_edges (config : IntegratedAgentConfig) :
  lookup_node reflection_agent (edges (_build_workflow config)) = None /\
  lookup_node reflection_agent (branches (_build_workflow config))
  = if reflection_enabled config
    then Some (_reflection_router config, reflection_ends config)
    else None.
Proof.
  unfold _build_workflow, _add_workflow_edges.
  split_config config; cbn; split; reflexivity.
Qed.

Lemma next_node_reflection (config : IntegratedAgentConfig) (s : AgentState) :
  next_node (_build_workflow config) reflection_agent s
  = if reflection_enabled config then target_of (route_policy config s) else END.
Proof.
  unfold next_node. destruct (reflection_edges config) as [-> ->].
  destruct (reflection_enabled config); [|reflexivity].
  now rewrite reflection_ends_policy.
Qed.

(** The router sends the run on only while budget is left. *)
Lemma next_node_reflection_budget (config : IntegratedAgentConfig)
    (s : AgentState) (m : NodeName) :
  next_node (_build_workflow config) reflection_agent s = Node m ->
  0 < remaining_steps s.
Proof.
  rewrite next_node_reflection.
  destruct (reflection_enabled config); [|discriminate].
  unfold route_policy.
  destruct (Z.leb_spec (remaining_steps s) 0); [discriminate | lia].
Qed.

(** Every edge leads down the path or is taken with budget left. *)
Lemma next_node_progress (config : IntegratedAgentConfig) (n : NodeName)
    (s : AgentState) :
  match next_node (_build_workflow config) n s with
  | END => True
  | Node m => (rank m < rank n)%nat \/ 0 < remaining_steps s
  end.
Proof.
  destruct (next_node (_build_workflow config) n s) as [|m] eqn:Et; [exact I|].
  destruct n;
    try (left;
         match type of Et with
         | next_node _ ?k _ = _ =>
             pose proof (next_node_path config k s ltac:(discriminate)) as Hp
         end;
         now rewrite Et in Hp).
  right. eapply next_node_reflection_budget; eassumption.
Qed.

Lemma entry_rank (config : IntegratedAgentConfig) (n : NodeName) :
  entry_point (_build_workflow config) = Some n -> (rank n <= 4)%nat.
Proof. intros _. destruct n; cbn; lia. Qed.

Lemma remaining_after (config : IntegratedAgentConfig) (n : NodeName)
    (outcome : Outcome) (s : AgentState) :
  remaining_steps (node_action config n outcome s)
  = match outcome with
    | None => remaining_steps s - 1
    | Some _ => remaining_steps s
    end.
Proof.
  destruct outcome as [e|].
  - now rewrite node_action_fault.
  - now destruct (node_action_success config n s) as [r ->].
Qed.

Lemma successes_cons (t : Tick) (ts : list Tick) :
  successes (t :: ts) = ((if completed t then 1 else 0) + successes ts)%nat.
Proof. unfold successes. cbn [filter]. now destruct (completed t). Qed.

Lemma astream_END (config : IntegratedAgentConfig) (g : StateGraph)
    (oracle : Oracle) (limit i : nat) (s : AgentState) :
  astream config g oracle limit i END s = [].
Proof. destruct limit; reflexivity. Qed.

(** From a node of rank [k] with budget [r], the invocations that complete
    number at most [r + 3] when budget is left and at most [k] when not. *)
Lemma successes_bounded (config : IntegratedAgentConfig) (oracle : Oracle)
    (limit : nat) :
  forall i n s,
    Z.of_nat (successes (astream config (_build_workflow config) oracle
                                 limit i (Node n) s))
    <= if 1 <=? remaining_steps s then remaining_steps s + 3
       else Z.of_nat (rank n).
Proof.
  induction limit as [|limit IH]; intros i n s.
  - cbn. destruct (1 <=? remaining_steps s) eqn:E; [apply Z.leb_le in E|]; lia.
  - cbn [astream]. rewrite successes_cons. unfold completed at 1.
    cbn [tick_outcome].
    set (s' := node_action config n (oracle i n) s).
    pose proof (remaining_after config n (oracle i n) s) as Hr. fold s' in Hr.
    pose proof (next_node_progress config n s') as Hnext.
    assert (Hrank : (1 <= rank n <= 4)%nat) by (clear; destruct n; cbn; lia).
    assert (Hrest :
              Z.of_nat (successes
                          (astream config (_build_workflow config) oracle limit
                                   (S i) (next_node (_build_workflow config) n s') s'))
              <= if 1 <=? remaining_steps s' then remaining_steps s' + 3
                 else Z.of_nat (rank n) - 1).
    { destruct (next_node (_build_workflow config) n s') as [|m].
      - rewrite astream_END.
        unfold successes. cbn [filter length].
        destruct (Z.leb_spec 1 (remaining_steps s')); lia.
      - specialize (IH (S i) m s').
        destruct (Z.leb_spec 1 (remaining_steps s')); [exact IH|].
        destruct Hnext as [Hlt | Hpos]; lia. }
    destruct (oracle i n) as [e|];
      destruct (Z.leb_spec 1 (remaining_steps s'));
      destruct (Z.leb_spec 1 (remaining_steps s)); lia.
Qed.

(** C1 fails: with max_iterations 1, the three roles and reflection
    enabled, a run without faults makes four node invocations, through
    [run] and through [run_stream] alike. *)
Lemma C1_counterexample :
  let config := mkConfig 1 [PLANNING; RESEARCH; CODE] true 2 [] in
  fst (run_state config 25 no_fault login_request) = 4%nat /\
  length (run_stream config 25 no_fault login_request) = 4%nat /\
  ~ (Z.of_nat (fst (run_state config 25 no_fault login_request))
     <= max_iterations config).
Proof.
  cbn. repeat split. lia.
Qed.

(** C1, amended.  In every run, synchronous or streaming, the node
    invocations whose logic completes number at most the larger of
    [max_iterations + 3] and 4. *)
Theorem C1_budget_bounds_completed (config : IntegratedAgentConfig) (limit : nat)
    (oracle : Oracle) (ctx : ChatContext) :
  Z.of_nat (successes (run_ticks config limit oracle ctx))
  <= Z.max (max_iterations config + 3) 4 /\
  fst (run_state config limit oracle ctx)
  = length (run_ticks config limit oracle ctx) /\
  length (run_stream config limit oracle ctx)
  = length (run_ticks config limit oracle ctx).
Proof.
  split; [|split].
  - unfold run_ticks.
    destruct (compile (_build_workflow config)) as [g|] eqn:Hc; [|cbn; lia].
    destruct (compile_inv _ _ Hc) as [-> [n Hn]].
    unfold entry_target. rewrite Hn.
    pose proof (successes_bounded config oracle limit 0 n
                                  (initial_state config ctx)) as H.
    pose proof (entry_rank config n Hn) as Hk.
    cbn [initial_state remaining_steps] in H.
    destruct (Z.leb_spec 1 (max_iterations config)); lia.
  - unfold run_ticks, run_state.
    destruct (compile (_build_workflow config)) as [g|]; [|reflexivity].
    apply invoke_astream.
  - apply run_stream_length.
Qed.

(** The bound is reached: with max_iterations 8, when only the first
    invocation faults, eleven invocations complete. *)
Example budget_bound_reached :
  let config := mkConfig 8 [PLANNING; RESEARCH; CODE] true 2 [] in
  let oracle : Oracle := fun i _ => match i with O => Some "boom" | _ => None end in
  successes (run_ticks config 25 oracle login_request) = 11%nat /\
  length (run_ticks config 25 oracle login_request) = 12%nat.
Proof. split; reflexivity. Qed.

(** When the code node always faults, each retry is followed by a
    reflection step: with max_iterations 5 the run makes 8 invocations. *)
Example code_always_faults :
  let oracle : Oracle :=
    fun _ n => match n with code_agent => Some "boom" | _ => None end in
  map tick_node (run_ticks scenario_config 25 oracle login_request)
  = [planning_agent; research_agent; code_agent; reflection_agent;
     code_agent; reflection_agent; code_agent; reflection_agent] /\
  option_map remaining_steps (snd (run_state scenario_config 25 oracle login_request))
  = Some 0.
Proof. split; reflexivity. Qed.

(* ================================================================= *)
(** ** The scenario without faults *)

Lemma astream_ext (config : IntegratedAgentConfig) (g : StateGraph)
    (o1 o2 : Oracle) (limit : nat) :
  (forall i n, o1 i n = o2 i n) ->
  forall i cur s,
    astream config g o1 limit i cur s = astream config g o2 limit i cur s.
Proof.
  intros H. induction limit as [|limit IH]; intros i cur s; [reflexivity|].
  destruct cur as [|n]; [reflexivity|]. cbn [astream]. now rewrite H, IH.
Qed.

Lemma invoke_ext (config : IntegratedAgentConfig) (g : StateGraph)
    (o1 o2 : Oracle) (limit : nat) :
  (forall i n, o1 i n = o2 i n) ->
  forall i cur s,
    invoke config g o1 limit i cur s = invoke config g o2 limit i cur s.
Proof.
  intros H. induction limit as [|limit IH]; intros i cur s; [reflexivity|].
  destruct cur as [|n]; [reflexivity|]. cbn [invoke]. now rewrite H, IH.
Qed.

Lemma invoke_END (config : IntegratedAgentConfig) (g : StateGraph)
    (oracle : Oracle) (limit i : nat) (s : AgentState) :
  invoke config g oracle limit i END s = (0%nat, Some s).
Proof. destruct limit; reflexivity. Qed.

(** Without faults a run returns as soon as the runtime allows it as many
    steps as the path is long. *)
Lemma invoke_returns_without_faults (config : IntegratedAgentConfig)
    (oracle : Oracle) (limit : nat) :
  (forall i n, oracle i n = None) ->
  forall i n s,
    errors s = [] -> (rank n <= limit)%nat ->
    exists final,
      snd (invoke config (_build_workflow config) oracle limit i (Node n) s)
      = Some final.
Proof.
  intros Hfault. induction limit as [|limit IH]; intros i n s He Hk.
  - destruct n; cbn in Hk; lia.
  - cbn [invoke]. rewrite Hfault.
    set (s' := node_action config n None s).
    assert (He' : errors s' = []).
    { subst s'. now destruct (node_action_success config n s) as [r ->]. }
    pose proof (next_node_progress config n s') as Hnext.
    destruct (next_node (_build_workflow config) n s') as [|m] eqn:Et.
    + rewrite invoke_END. now exists s'.
    + assert (Hm : (rank m <= limit)%nat).
      { destruct (NodeName_eqb n reflection_agent) eqn:En.
        - exfalso. assert (n = reflection_agent) as ->
            by (clear - En; destruct n; cbn in En; congruence).
          rewrite next_node_reflection in Et.
          unfold route_policy in Et. rewrite He' in Et.
          destruct (reflection_enabled config), (remaining_steps s' <=? 0);
            discriminate.
        - assert (Hn : n <> reflection_agent) by (intros ->; discriminate).
          pose proof (next_node_path config n s' Hn) as Hp.
          rewrite Et in Hp. lia. }
      destruct (IH (S i) m s' He' Hm) as [final Hfinal].
      exists final.
      destruct (invoke config (_build_workflow config) oracle limit (S i)
                       (Node m) s').
      exact Hfinal.
Qed.

Lemma run_returns_without_faults (config : IntegratedAgentConfig)
    (oracle : Oracle) (limit : nat) (ctx : ChatContext) :
  (forall i n, oracle i n = None) ->
  (4 <= limit)%nat ->
  compile (_build_workflow config) <> None ->
  exists r, run config limit oracle ctx = Some r.
Proof.
  intros Hfault Hlimit Hc. unfold run, run_state.
  destruct (compile (_build_workflow config)) as [g|] eqn:Eg; [|congruence].
  destruct (compile_inv _ _ Eg) as [-> [n Hn]].
  unfold entry_target. rewrite Hn.
  destruct (invoke_returns_without_faults config oracle limit Hfault 0 n
              (initial_state config ctx) eq_refl) as [final ->].
  - pose proof (entry_rank config n Hn). lia.
  - now eexists.
Qed.

(** C6.  With roles planning, research and code, reflection enabled,
    max_iterations 5 and fault tolerance 2, a run in which no node faults
    (and which the runtime allows four steps) invokes planning, research,
    code and reflection in this order and nothing more; the router then
    finds no error and answers "end", so the run ends; four invocations
    are made, [results] has four entries, and the text of the response is
    the four contents joined by blank lines. *)
Theorem C6_scenario_without_faults (limit : nat) (oracle : Oracle)
    (ctx : ChatContext) :
  (4 <= limit)%nat ->
  (forall i n, oracle i n = None) ->
  map tick_node (run_ticks scenario_config limit oracle ctx)
  = [planning_agent; research_agent; code_agent; reflection_agent] /\
  fst (run_state scenario_config limit oracle ctx) = 4%nat /\
  exists final,
    snd (run_state scenario_config limit oracle ctx) = Some final /\
    errors final = [] /\
    _reflection_router scenario_config final = "end" /\
    next_node (_build_workflow scenario_config) reflection_agent final = END /\
    length (results final) = 4%nat /\
    _format_response final = PyStr.join blank_line (map content (results final)) /\
    map content (results final)
    = [ ("Planning agent processed query: " ++ ctx_query ctx)%string;
        ("Research agent processed query: " ++ ctx_query ctx)%string;
        ("Code agent processed query: " ++ ctx_query ctx)%string;
        "Reflection agent reviewed the results and found them satisfactory." ] /\
    option_map response (run scenario_config limit oracle ctx)
    = Some (_format_response final).
Proof.
  intros Hlimit Hfault.
  unfold run, run_ticks, run_state.
  change (compile (_build_workflow scenario_config))
    with (Some (_build_workflow scenario_config)).
  cbv beta iota.
  rewrite (astream_ext _ _ oracle no_fault limit Hfault).
  rewrite (invoke_ext _ _ oracle no_fault limit Hfault).
  do 4 (destruct limit as [|limit]; [lia|]). clear Hlimit.
  cbn [astream invoke entry_target]. cbn - [astream invoke].
  rewrite astream_END, invoke_END. cbn [fst snd map tick_node option_map].
  split; [reflexivity|]. split; [reflexivity|].
  eexists. split; [reflexivity|].
  repeat split.
Qed.

Lemma C6_scenario_without_faults_witness :
  map tick_node (run_ticks scenario_config 25 no_fault login_request)
  = [planning_agent; research_agent; code_agent; reflection_agent] /\
  fst (run_state scenario_config 25 no_fault login_request) = 4%nat.
Proof.
  destruct (C6_scenario_without_faults 25 no_fault login_request) as [H1 [H2 _]].
  - lia.
  - reflexivity.
  - split; assumption.
Defined.

(* ================================================================= *)
(** ** Further properties: tool calls and citations of a state *)

Lemma extract_tool_calls_from (hs : list HistoryEntry)
    (called : list ToolCallResponse) :
  fold_left
    (fun called event =>
       match tool_calls event with
       | [] => called
       | tcs => fold_left (fun called tc => called ++ [to_response tc]) tcs called
       end)
    hs called
  = called ++ map to_response (flat_map tool_calls hs).
Proof.
  assert (inner : forall tcs acc,
             fold_left (fun called tc => called ++ [to_response tc]) tcs acc
             = acc ++ map to_response tcs).
  { induction tcs as [|tc tcs IH]; intros acc; cbn.
    - now rewrite app_nil_r.
    - now rewrite IH, <- app_assoc. }
  revert called. induction hs as [|h hs IH]; intros called;
    cbn [fold_left flat_map].
  - cbn. now rewrite app_nil_r.
  - rewrite IH, map_app, app_assoc. f_equal.
    destruct (tool_calls h) as [|tc tcs].
    + cbn. now rewrite app_nil_r.
    + cbv beta iota. rewrite inner. cbn [map]. now rewrite <- app_assoc.
Qed.

(** X1.  The tool calls of a response are those of the history entries,
    entry after entry and call after call, each turned into one record
    (absent keys replaced by their defaults); none is dropped or repeated. *)
Theorem extract_tool_calls_flat (s : AgentState) :
  _extract_tool_calls s = map to_response (flat_map tool_calls (history s)) /\
  length (_extract_tool_calls s)
  = list_sum (map (fun h => length (tool_calls h)) (history s)).
Proof.
  assert (H : _extract_tool_calls s
              = map to_response (flat_map tool_calls (history s))).
  { unfold _extract_tool_calls. now rewrite extract_tool_calls_from. }
  split; [exact H|]. rewrite H, length_map. clear H.
  induction (history s) as [|h hs IH]; cbn [flat_map map list_sum];
    [reflexivity|].
  rewrite length_app, IH. reflexivity.
Qed.

Lemma collect_citations_from (rs : list ResultEntry) (cs : list string) :
  fold_left (fun cs r => cs ++ citations r) rs cs = cs ++ flat_map citations rs.
Proof.
  revert cs. induction rs as [|r rs IH]; intros cs; cbn.
  - now rewrite app_nil_r.
  - now rewrite IH, app_assoc.
Qed.

Lemma extract_citations_in (s : AgentState) (c : string) :
  In c (_extract_citations s) <->
  exists r, In r (results s) /\ In c (citations r).
Proof.
  unfold _extract_citations.
  rewrite nodup_In, collect_citations_from. cbn [app].
  rewrite in_flat_map. reflexivity.
Qed.

(** X2.  The citations of a response hold no string twice, and a string is
    among them exactly when some result of the state cites it. *)
Theorem extract_citations_set (s : AgentState) :
  NoDup (_extract_citations s) /\
  forall c, In c (_extract_citations s) <->
            exists r, In r (results s) /\ In c (citations r).
Proof.
  split; [apply NoDup_nodup | apply extract_citations_in].
Qed.

(* ================================================================= *)
(** ** Further properties: how the faults of the nodes are classified *)

Lemma lower_app (a b : string) :
  PyStr.lower (a ++ b) = (PyStr.lower a ++ PyStr.lower b)%string.
Proof. induction a as [|c a IH]; cbn; [reflexivity | now rewrite IH]. Qed.

(** X3.  The message a node records for a fault is classified as follows,
    whatever the text [e] of the exception.  A fault of the code node is a
    code error.  A fault of the research node is a research error unless [e]
    mentions a code keyword; a fault of the planning node is a planning
    error unless [e] mentions a code or research keyword.  A fault of the
    reflection node is classified by [e] alone, so it is a code error when
    [e] mentions no keyword. *)
Theorem fault_message_classification (e : string) :
  _classify_error (error_message code_agent e) = "code" /\
  _classify_error (error_message research_agent e)
  = (if PyStr.any_in code_keywords (PyStr.lower e) then "code" else "research") /\
  _classify_error (error_message planning_agent e)
  = (if PyStr.any_in code_keywords (PyStr.lower e) then "code"
     else if PyStr.any_in research_keywords (PyStr.lower e) then "research"
     else "planning") /\
  _classify_error (error_message reflection_agent e) = _classify_error e.
Proof.
  unfold _classify_error, error_message. rewrite !lower_app.
  unfold PyStr.any_in, code_keywords, research_keywords, planning_keywords.
  cbn. repeat split.
Qed.

(* ================================================================= *)
(** ** Further properties: the graph of a configuration *)

Lemma compile_built_iff (config : IntegratedAgentConfig) :
  compile (_build_workflow config)
  = (if has_type config CODE || has_type config RESEARCH || has_type config PLANNING
     then Some (_build_workflow config) else None).
Proof.
  unfold compile, _build_workflow, _add_workflow_edges, reflection_ends.
  split_config config; reflexivity.
Qed.

(** X4.  The graph of a configuration can be compiled exactly when one of
    the code, research and planning roles is enabled: only then is the
    entry point a node that was added.  The edges never name a node that
    was not added. *)
Theorem compile_workflow (config : IntegratedAgentConfig) :
  compile (_build_workflow config)
  = (if has_type config CODE || has_type config RESEARCH || has_type config PLANNING
     then Some (_build_workflow config) else None) /\
  Forall (fun e => is_node (_build_workflow config) (fst e) = true /\
                   is_target (_build_workflow config) (snd e) = true)
         (edges (_build_workflow config)) /\
  Forall (fun b => is_node (_build_workflow config) (fst b) = true /\
                   Forall (fun kt => is_target (_build_workflow config) (snd kt) = true)
                          (snd (snd b)))
         (branches (_build_workflow config)).
Proof.
  split; [apply compile_built_iff|].
  unfold _build_workflow, _add_workflow_edges, reflection_ends.
  split_config config; cbn; repeat split; repeat constructor.
Qed.

(** X5.  The plain edges of the graph form a path: no node has two of
    them, none leaves the reflection node, and each leads to the end or to
    a node further down the order planning, research, code, reflection.
    There is at most one conditional edge; it leaves the reflection node
    and is there exactly when reflection is enabled. *)
Theorem workflow_shape (config : IntegratedAgentConfig) :
  NoDup (map fst (edges (_build_workflow config))) /\
  Forall (fun e => fst e <> reflection_agent /\
                   match snd e with
                   | END => True
                   | Node m => (rank m < rank (fst e))%nat
                   end)
         (edges (_build_workflow config)) /\
  map fst (branches (_build_workflow config))
  = (if reflection_enabled config then [reflection_agent] else []).
Proof.
  unfold _build_workflow, _add_workflow_edges.
  split_config config; cbn; repeat split;
    repeat (constructor; cbn); try lia; try discriminate;
    try (intuition discriminate); auto.
Qed.

(* ================================================================= *)
(** ** Further properties: what a run keeps true *)

Section TraceInvariant.

Variable config : IntegratedAgentConfig.
Variable g : StateGraph.
Variable oracle : Oracle.

(** A relation between the invocations made so far and the state. *)
Variable Inv : list Tick -> AgentState -> Prop.

Hypothesis Inv_step :
  forall done s n o,
    Inv done s ->
    Inv (done ++ [mkTick n o (node_action config n o s)]) (node_action config n o s).

Lemma astream_invariant (limit : nat) :
  forall i cur s done,
    Inv done s ->
    forall k t,
      nth_error (astream config g oracle limit i cur s) k = Some t ->
      Inv (done ++ firstn (S k) (astream config g oracle limit i cur s))
          (tick_state t).
Proof.
  induction limit as [|limit IH]; intros i cur s done H k t Hk.
  - destruct cur, k; discriminate.
  - destruct cur as [|n]; [destruct k; discriminate|].
    cbn [astream] in *. destruct k as [|k].
    + injection Hk as <-. cbn [firstn tick_state]. now apply Inv_step.
    + cbn [nth_error] in Hk. cbn [firstn].
      specialize (IH (S i) _ _ _ (Inv_step done s n (oracle i n) H) k t Hk).
      now rewrite <- app_assoc in IH.
Qed.

End TraceInvariant.

Lemma run_ticks_invariant (config : IntegratedAgentConfig)
    (Inv : list Tick -> AgentState -> Prop) :
  (forall done s n o,
      Inv done s ->
      Inv (done ++ [mkTick n o (node_action config n o s)])
          (node_action config n o s)) ->
  forall limit oracle ctx,
    Inv [] (initial_state config ctx) ->
    forall k t,
      nth_error (run_ticks config limit oracle ctx) k = Some t ->
      Inv (firstn (S k) (run_ticks config limit oracle ctx)) (tick_state t).
Proof.
  intros Hstep limit oracle ctx H0 k t. unfold run_ticks.
  destruct (compile (_build_workflow config)) as [g|];
    [|destruct k; discriminate].
  intros Hk.
  exact (astream_invariant config g oracle Inv Hstep limit 0 _ _ [] H0 k t Hk).
Qed.

Lemma successes_app (a b : list Tick) :
  successes (a ++ b) = (successes a + successes b)%nat.
Proof. unfold successes. now rewrite filter_app, length_app. Qed.

Lemma current_agent_after (config : IntegratedAgentConfig) (n : NodeName)
    (o : Outcome) (s : AgentState) :
  current_agent (node_action config n o s) = node_name n.
Proof.
  destruct o as [e|].
  - now rewrite node_action_fault.
  - now destruct (node_action_success config n s) as [r ->].
Qed.

Lemma history_after (config : IntegratedAgentConfig) (n : NodeName)
    (o : Outcome) (s : AgentState) :
  map agent (history (node_action config n o s))
  = map agent (history s) ++ match o with None => [node_name n] | Some _ => [] end.
Proof.
  destruct o as [e|].
  - rewrite node_action_fault. cbn. now rewrite app_nil_r.
  - destruct (node_action_success config n s) as [r ->]. cbn.
    now rewrite map_app.
Qed.

Lemma errors_after (config : IntegratedAgentConfig) (n : NodeName)
    (o : Outcome) (s : AgentState) :
  errors (node_action config n o s)
  = errors s ++ match o with None => [] | Some e => [error_message n e] end.
Proof.
  destruct o as [e|].
  - now rewrite node_action_fault.
  - destruct (node_action_success config n s) as [r ->]. cbn.
    now rewrite app_nil_r.
Qed.

Lemma last_of_firstn {A : Type} (l : list A) (k : nat) (x : A) :
  nth_error l k = Some x -> last_of (firstn (S k) l) = Some x.
Proof.
  revert k. induction l as [|d ds IH]; intros k Hk; [destruct k; discriminate|].
  destruct k as [|k]; [now injection Hk as <-|].
  cbn [nth_error] in Hk. specialize (IH k Hk).
  change (firstn (S (S k)) (d :: ds)) with (d :: firstn (S k) ds).
  destruct (firstn (S k) ds) as [|d' ds'] eqn:E; [discriminate|].
  rewrite <- IH. unfold last_of. cbn [rev].
  destruct (rev ds' ++ [d']) eqn:E'; [now destruct (rev ds')|reflexivity].
Qed.

(** X6.  After each invocation of a run, the budget left is max_iterations
    less the number of invocations completed so far; the history names, in
    order, the nodes of exactly those invocations; the errors are, in
    order, the messages of exactly the invocations that faulted; and
    [current_agent] names the node just invoked. *)
Theorem run_accounting (config : IntegratedAgentConfig) (limit : nat)
    (oracle : Oracle) (ctx : ChatContext) (k : nat) (t : Tick) :
  nth_error (run_ticks config limit oracle ctx) k = Some t ->
  remaining_steps (tick_state t)
  = max_iterations config
    - Z.of_nat (successes (firstn (S k) (run_ticks config limit oracle ctx))) /\
  map agent (history (tick_state t))
  = map (fun d => node_name (tick_node d))
        (filter completed (firstn (S k) (run_ticks config limit oracle ctx))) /\
  errors (tick_state t)
  = flat_map fault_messages (firstn (S k) (run_ticks config limit oracle ctx)) /\
  current_agent (tick_state t) = node_name (tick_node t).
Proof.
  intros Hk.
  pose (Inv := fun (done : list Tick) (s : AgentState) =>
                 remaining_steps s = max_iterations config - Z.of_nat (successes done) /\
                 map agent (history s)
                 = map (fun d => node_name (tick_node d)) (filter completed done) /\
                 errors s = flat_map fault_messages done /\
                 match last_of done with
                 | Some d => current_agent s = node_name (tick_node d)
                 | None => True
                 end).
  assert (H : Inv (firstn (S k) (run_ticks config limit oracle ctx)) (tick_state t)).
  { apply run_ticks_invariant; [| |exact Hk].
    - intros done s n o (Hr & Hh & He & _). unfold Inv.
      rewrite remaining_after, history_after, errors_after, successes_app,
        filter_app, map_app, flat_map_app, last_of_snoc, current_agent_after.
      rewrite Hh, He. unfold successes, fault_messages in *. cbn.
      destruct o as [e|]; cbn; repeat split; try reflexivity; lia.
    - unfold Inv. cbn. repeat split; lia. }
  destruct H as (Hr & Hh & He & Hc). repeat split; try assumption.
  pose proof (last_of_firstn _ _ _ Hk) as Hl.
  now rewrite Hl in Hc.
Qed.

Lemma run_accounting_witness :
  remaining_steps
    (mkState "build a login page" (mkContext "project" "agent" [] [] "none")
             [mkResult "Planning agent processed query: build a login page" []]
             [] 4 "planning_agent"
             [mkHistory "planning_agent"
                (mkResult "Planning agent processed query: build a login page" []) []])
  = 5 - 1.
Proof.
  exact (proj1 (run_accounting scenario_config 25 no_fault login_request 0 _ eq_refl)).
Defined.

Lemma results_after (config : IntegratedAgentConfig) (n : NodeName)
    (o : Outcome) (s : AgentState) :
  exists rs,
    results (node_action config n o s) = results s ++ rs /\
    length rs
    = (if completed (mkTick n o s) then 1
       else if (fault_tolerance_level config >=? 2) && recovered (mkTick n o s)
            then 1 else 0)%nat /\
    map result (history (node_action config n o s))
    = map result (history s) ++ (if completed (mkTick n o s) then rs else []).
Proof.
  unfold completed, recovered, completed. cbn [tick_outcome tick_node].
  destruct o as [e|].
  - rewrite node_action_fault. cbn [results history negb andb].
    eexists. split; [reflexivity|]. rewrite app_nil_r. split; [|reflexivity].
    destruct n; cbn; destruct (fault_tolerance_level config >=? 2); reflexivity.
  - destruct (node_action_success config n s) as [r ->]. cbn [results history].
    exists [r]. rewrite map_app. repeat split.
Qed.

(** X7.  After each invocation of a run, [results] holds one entry for each
    invocation completed so far and, when the fault tolerance level is at
    least 2, one more for each fault of a code, research or planning
    invocation.  Below level 2 the results are exactly the results recorded
    in the history, in the same order; at every level the history records
    no more entries than there are results. *)
Theorem run_results_accounting (config : IntegratedAgentConfig) (limit : nat)
    (oracle : Oracle) (ctx : ChatContext) (k : nat) (t : Tick) :
  nth_error (run_ticks config limit oracle ctx) k = Some t ->
  length (results (tick_state t))
  = (successes (firstn (S k) (run_ticks config limit oracle ctx))
     + if fault_tolerance_level config >=? 2
       then length (filter recovered (firstn (S k) (run_ticks config limit oracle ctx)))
       else 0)%nat /\
  (if fault_tolerance_level config >=? 2
   then (length (history (tick_state t)) <= length (results (tick_state t)))%nat
   else results (tick_state t) = map result (history (tick_state t))).
Proof.
  intros Hk.
  pose (Inv := fun (done : list Tick) (s : AgentState) =>
                 length (results s)
                 = (successes done
                    + if fault_tolerance_level config >=? 2
                      then length (filter recovered done) else 0)%nat /\
                 (if fault_tolerance_level config >=? 2
                  then (length (history s) <= length (results s))%nat
                  else results s = map result (history s))).
  apply (run_ticks_invariant config Inv); [| |exact Hk].
  - intros done s n o [Hlen Hres]. unfold Inv.
    destruct (results_after config n o s) as (rs & -> & Hrs & Hh).
    rewrite successes_app, filter_app, !length_app, Hlen, Hrs.
    unfold successes. cbn [filter length].
    assert (Hsame : completed (mkTick n o (node_action config n o s))
                    = completed (mkTick n o s)) by reflexivity.
    assert (Hsame' : recovered (mkTick n o (node_action config n o s))
                     = recovered (mkTick n o s)) by reflexivity.
    rewrite Hsame, Hsame'. clear Hsame Hsame'.
    assert (Hexcl : completed (mkTick n o s) = true ->
                    recovered (mkTick n o s) = false).
    { unfold recovered. now intros ->. }
    split.
    + destruct (completed (mkTick n o s)) eqn:Ec.
      * rewrite (Hexcl eq_refl).
        destruct (fault_tolerance_level config >=? 2); cbn [length]; lia.
      * destruct (fault_tolerance_level config >=? 2);
          destruct (recovered (mkTick n o s)); cbn [andb length]; lia.
    + destruct (fault_tolerance_level config >=? 2).
      * apply (f_equal (@length _)) in Hh.
        rewrite !length_map, length_app, ?length_map in Hh.
        unfold successes in *.
        destruct (completed (mkTick n o s));
          destruct (recovered (mkTick n o s)); cbn [length andb] in *; lia.
      * rewrite Hh, Hres. cbn [andb] in Hrs.
        destruct (completed (mkTick n o s)); [reflexivity|].
        destruct rs; [reflexivity | discriminate].
  - unfold Inv. cbn. destruct (fault_tolerance_level config >=? 2); auto.
Qed.

Lemma run_results_accounting_witness :
  length
    [mkResult "Planning agent processed query: build a login page" []]
  = (1 + 0)%nat.
Proof.
  exact (proj1 (run_results_accounting scenario_config 25 no_fault
                                       login_request 0 _ eq_refl)).
Defined.

Lemma extends_refl (s : AgentState) : extends s s.
Proof. repeat split; exists []; now rewrite app_nil_r. Qed.

Lemma extends_trans (a b c : AgentState) : extends a b -> extends b c -> extends a c.
Proof.
  intros ([r1 H1] & [e1 H2] & [h1 H3]) ([r2 H4] & [e2 H5] & [h2 H6]).
  repeat split; eexists.
  - rewrite H4, H1, <- app_assoc. reflexivity.
  - rewrite H5, H2, <- app_assoc. reflexivity.
  - rewrite H6, H3, <- app_assoc. reflexivity.
Qed.

Lemma node_action_extends (config : IntegratedAgentConfig) (n : NodeName)
    (o : Outcome) (s : AgentState) :
  extends s (node_action config n o s).
Proof.
  destruct o as [e|].
  - rewrite node_action_fault. repeat split; eexists; cbn; try reflexivity.
    now rewrite app_nil_r.
  - destruct (node_action_success config n s) as [r ->].
    repeat split; eexists; cbn; try reflexivity. now rewrite app_nil_r.
Qed.

Lemma astream_extends (config : IntegratedAgentConfig) (g : StateGraph)
    (oracle : Oracle) (limit : nat) :
  forall i cur s,
    Forall (fun t => extends s (tick_state t))
           (astream config g oracle limit i cur s) /\
    ForallOrdPairs (fun t t' => extends (tick_state t) (tick_state t'))
                   (astream config g oracle limit i cur s).
Proof.
  induction limit as [|limit IH]; intros i cur s.
  - destruct cur; split; constructor.
  - destruct cur as [|n]; [split; constructor|]. cbn [astream].
    pose proof (node_action_extends config n (oracle i n) s) as Hs.
    destruct (IH (S i) (next_node g n (node_action config n (oracle i n) s))
                 (node_action config n (oracle i n) s)) as [Hall Hpairs].
    split.
    + constructor; [exact Hs|].
      eapply Forall_impl; [|exact Hall].
      intros t Ht. eapply extends_trans; eassumption.
    + constructor; assumption.
Qed.

(** X8.  Results, errors and history only grow.  One invocation leaves the
    entries it found in place and adds at most one to each list; in a run,
    the three lists of every state begin with those of every earlier
    state. *)
Theorem run_append_only :
  (forall config n o s,
      extends s (node_action config n o s) /\
      (length (results (node_action config n o s)) <= S (length (results s)))%nat /\
      (length (errors (node_action config n o s)) <= S (length (errors s)))%nat /\
      (length (history (node_action config n o s)) <= S (length (history s)))%nat) /\
  (forall config limit oracle ctx,
      ForallOrdPairs (fun t t' => extends (tick_state t) (tick_state t'))
                     (run_ticks config limit oracle ctx)).
Proof.
  split.
  - intros config n o s. split; [apply node_action_extends|].
    destruct o as [e|].
    + rewrite node_action_fault. cbn [results errors history].
      rewrite !length_app.
      destruct (recovery_placeholder n);
        destruct (fault_tolerance_level config >=? 2); cbn; lia.
    + destruct (node_action_success config n s) as [r ->].
      cbn [results errors history]. rewrite !length_app. cbn. lia.
  - intros config limit oracle ctx. unfold run_ticks.
    destruct (compile (_build_workflow config)) as [g|]; [|constructor].
    apply astream_extends.
Qed.

(* ================================================================= *)
(** ** Further properties: which nodes a run invokes *)

Lemma is_node_built (config : IntegratedAgentConfig) (n : NodeName) :
  is_node (_build_workflow config) n
  = match n with
    | code_agent => has_type config CODE
    | research_agent => has_type config RESEARCH
    | planning_agent => has_type config PLANNING
    | reflection_agent => reflection_enabled config
    end.
Proof.
  unfold _build_workflow, _add_workflow_edges.
  split_config config; destruct n; reflexivity.
Qed.

Lemma entry_point_built (config : IntegratedAgentConfig) :
  entry_point (_build_workflow config)
  = Some (if has_type config PLANNING then planning_agent
          else if has_type config RESEARCH then research_agent
          else code_agent).
Proof.
  unfold _build_workflow, _add_workflow_edges.
  split_config config; reflexivity.
Qed.

(** Off the reflection node, an edge leads to a node that was added, and to
    the reflection node only from the code node. *)
Lemma next_node_plain_enabled (config : IntegratedAgentConfig) (n m : NodeName)
    (s : AgentState) :
  n <> reflection_agent ->
  next_node (_build_workflow config) n s = Node m ->
  is_node (_build_workflow config) m = true /\
  (m = reflection_agent -> has_type config CODE = true).
Proof.
  intros Hn. rewrite is_node_built.
  unfold next_node, _build_workflow, _add_workflow_edges.
  split_config config; destruct n; cbn; try congruence;
    intros [= <-]; split; congruence.
Qed.

Lemma next_node_reflection_enabled (config : IntegratedAgentConfig) (m : NodeName)
    (s : AgentState) :
  next_node (_build_workflow config) reflection_agent s = Node m ->
  is_node (_build_workflow config) m = true /\ m <> reflection_agent.
Proof.
  rewrite next_node_reflection, is_node_built.
  destruct (reflection_enabled config); [|discriminate].
  unfold route_policy.
  destruct (remaining_steps s <=? 0); [discriminate|].
  destruct (last_of (errors s)) as [e|]; [|discriminate].
  destruct (classify_error_range e) as [H | [H | H]]; rewrite H; cbn;
    match goal with |- context [has_type ?c ?r] => destruct (has_type c r) eqn:E end;
    try discriminate; intros [= <-]; split; congruence.
Qed.

(** X9.  A run invokes only nodes of its graph: the code, research or
    planning node only when that role is enabled, and the reflection node
    only when reflection is enabled and the code role too, the code node
    being the only one with an edge to it. *)
Theorem run_invokes_enabled_nodes (config : IntegratedAgentConfig) (limit : nat)
    (oracle : Oracle) (ctx : ChatContext) :
  Forall (fun t =>
            match tick_node t with
            | code_agent => has_type config CODE = true
            | research_agent => has_type config RESEARCH = true
            | planning_agent => has_type config PLANNING = true
            | reflection_agent =>
                reflection_enabled config = true /\ has_type config CODE = true
            end)
         (run_ticks config limit oracle ctx).
Proof.
  unfold run_ticks.
  destruct (compile (_build_workflow config)) as [g|] eqn:Hc; [|constructor].
  destruct (compile_inv _ _ Hc) as [-> _].
  pose proof (compile_built_iff config) as Hany. rewrite Hc in Hany.
  set (ok := fun n => is_node (_build_workflow config) n = true /\
                      (n = reflection_agent -> has_type config CODE = true)).
  assert (Hentry : match entry_target (_build_workflow config) with
                   | END => True
                   | Node n => ok n
                   end).
  { unfold entry_target, ok. rewrite entry_point_built.
    destruct (has_type config PLANNING) eqn:Ep;
      [|destruct (has_type config RESEARCH) eqn:Er];
      rewrite is_node_built; split; try assumption; try discriminate.
    destruct (has_type config CODE); [reflexivity|discriminate]. }
  assert (gen : forall limit i cur s,
             match cur with END => True | Node n => ok n end ->
             Forall (fun t => ok (tick_node t))
                    (astream config (_build_workflow config) oracle limit i cur s)).
  { clear. intros limit. induction limit as [|limit IH]; intros i cur s Hcur.
    - destruct cur; constructor.
    - destruct cur as [|n]; [constructor|]. cbn [astream].
      constructor; [exact Hcur|]. apply IH.
      destruct (next_node (_build_workflow config) n
                          (node_action config n (oracle i n) s)) as [|m] eqn:Et;
        [exact I|].
      destruct (NodeName_eqb n reflection_agent) eqn:En.
      + assert (n = reflection_agent) as ->
            by (clear - En; destruct n; cbn in En; congruence).
        apply next_node_reflection_enabled in Et. destruct Et as [Hm Hne].
        split; [exact Hm | intros ->; congruence].
      + assert (Hn : n <> reflection_agent) by (intros ->; discriminate).
        exact (next_node_plain_enabled config n m _ Hn Et). }
  eapply Forall_impl; [|exact (gen limit 0%nat _ (initial_state config ctx) Hentry)].
  intros t [Hnode Hcode]. rewrite is_node_built in Hnode.
  destruct (tick_node t); try assumption. split; [assumption | now apply Hcode].
Qed.

Lemma compile_built (config : IntegratedAgentConfig) :
  compile (_build_workflow config) <> None ->
  compile (_build_workflow config) = Some (_build_workflow config).
Proof.
  destruct (compile (_build_workflow config)) as [g|] eqn:Hc; [|congruence].
  destruct (compile_inv _ _ Hc) as [-> _]. reflexivity.
Qed.

(** X10.  When the planning role is enabled and the research role is not,
    no edge leaves the planning node: whatever else is configured and
    whatever happens in the node, the run is the single invocation of the
    planning node, and the code node is not reached. *)
Theorem planning_without_research_stops (config : IntegratedAgentConfig)
    (limit : nat) (oracle : Oracle) (ctx : ChatContext) :
  has_type config PLANNING = true ->
  has_type config RESEARCH = false ->
  (1 <= limit)%nat ->
  map tick_node (run_ticks config limit oracle ctx) = [planning_agent] /\
  exists final,
    run_state config limit oracle ctx = (1%nat, Some final) /\
    final = node_action config planning_agent (oracle 0%nat planning_agent)
                        (initial_state config ctx).
Proof.
  intros Hp Hr Hl. unfold run_ticks, run_state.
  rewrite (compile_built_iff config), Hp, Hr, orb_true_r.
  unfold entry_target. rewrite entry_point_built, Hp.
  destruct limit as [|limit]; [lia|]. cbn [astream invoke].
  assert (Hnext : forall s, next_node (_build_workflow config) planning_agent s = END).
  { intros s. unfold next_node, _build_workflow, _add_workflow_edges.
    rewrite Hp, Hr.
    destruct (has_type config CODE), (reflection_enabled config); reflexivity. }
  rewrite Hnext, astream_END, invoke_END. split; [reflexivity|].
  eexists. split; reflexivity.
Qed.

Lemma planning_without_research_stops_witness :
  map tick_node
      (run_ticks (mkConfig 5 [PLANNING; CODE] true 2 []) 25 no_fault login_request)
  = [planning_agent].
Proof.
  apply (planning_without_research_stops
           (mkConfig 5 [PLANNING; CODE] true 2 []) 25 no_fault login_request);
    [reflexivity | reflexivity | lia].
Defined.

(** With reflection disabled the edges only lead down the path, and not to
    the reflection node. *)
Lemma next_node_without_reflection (config : IntegratedAgentConfig)
    (n : NodeName) (s : AgentState) :
  reflection_enabled config = false ->
  n <> reflection_agent ->
  match next_node (_build_workflow config) n s with
  | END => True
  | Node m => m <> reflection_agent /\ (rank m < rank n)%nat
  end.
Proof.
  intros Hr Hn. unfold next_node, _build_workflow, _add_workflow_edges.
  rewrite Hr.
  destruct (has_type config CODE), (has_type config RESEARCH),
    (has_type config PLANNING); destruct n; cbn;
    try exact I; try congruence; split; try discriminate; lia.
Qed.

Lemma invoke_without_reflection (config : IntegratedAgentConfig)
    (oracle : Oracle) (limit : nat) :
  reflection_enabled config = false ->
  forall i n s,
    n <> reflection_agent ->
    (rank n <= S limit)%nat ->
    exists k final,
      invoke config (_build_workflow config) oracle limit i (Node n) s
      = (k, Some final) /\
      (S k <= rank n)%nat /\
      Forall (fun t => tick_node t <> reflection_agent)
             (astream config (_build_workflow config) oracle limit i (Node n) s).
Proof.
  intros Hr. induction limit as [|limit IH]; intros i n s Hn Hk.
  - destruct n; cbn in Hk; try lia; congruence.
  - cbn [invoke astream].
    set (s' := node_action config n (oracle i n) s).
    pose proof (next_node_without_reflection config n s' Hr Hn) as Hnext.
    destruct (next_node (_build_workflow config) n s') as [|m].
    + rewrite invoke_END, astream_END. exists 1%nat, s'.
      repeat split; [destruct n; cbn; try lia; congruence|].
      constructor; [exact Hn | constructor].
    + destruct Hnext as [Hm Hlt].
      destruct (IH (S i) m s' Hm ltac:(lia)) as (k & final & -> & Hle & Hall).
      exists (S k), final. repeat split; [lia|].
      constructor; assumption.
Qed.

(** X11.  With reflection disabled a run cannot loop: for every behaviour
    of the nodes, faults included, it returns after at most three
    invocations, one for each enabled role from the entry node on, and the
    reflection node is not invoked. *)
Theorem run_without_reflection_terminates (config : IntegratedAgentConfig)
    (limit : nat) (oracle : Oracle) (ctx : ChatContext) :
  reflection_enabled config = false ->
  compile (_build_workflow config) <> None ->
  (3 <= limit)%nat ->
  exists k final,
    run_state config limit oracle ctx = (k, Some final) /\
    (1 <= k <= 3)%nat /\
    Forall (fun t => tick_node t <> reflection_agent)
           (run_ticks config limit oracle ctx).
Proof.
  intros Hr Hc Hl. unfold run_state, run_ticks.
  rewrite (compile_built config Hc).
  unfold entry_target. rewrite entry_point_built.
  set (n := if has_type config PLANNING then planning_agent
            else if has_type config RESEARCH then research_agent else code_agent).
  assert (Hn : n <> reflection_agent /\ (rank n <= 4)%nat).
  { subst n. destruct (has_type config PLANNING), (has_type config RESEARCH);
      cbn; split; try discriminate; lia. }
  destruct Hn as [Hn Hk].
  destruct (invoke_without_reflection config oracle limit Hr 0 n
              (initial_state config ctx) Hn ltac:(lia))
    as (k & final & Hinv & Hle & Hall).
  exists k, final. split; [exact Hinv|]. split; [|exact Hall].
  split; [|lia].
  destruct limit as [|limit]; [lia|]. cbn [invoke] in Hinv.
  destruct (invoke config (_build_workflow config) oracle limit 1 _ _) as [k' f'].
  injection Hinv as <- _. lia.
Qed.

Lemma run_without_reflection_terminates_witness :
  exists k final,
    run_state (mkConfig 0 [PLANNING; RESEARCH; CODE] false 0 []) 3
              (fun _ _ => Some "boom") login_request
    = (k, Some final) /\ (1 <= k <= 3)%nat.
Proof.
  destruct (run_without_reflection_terminates
              (mkConfig 0 [PLANNING; RESEARCH; CODE] false 0 []) 3
              (fun _ _ => Some "boom") login_request)
    as (k & final & H & Hk & _); [reflexivity | discriminate | lia |].
  exists k, final. split; [exact H | exact Hk].
Defined.

Lemma invoke_fault_free (config : IntegratedAgentConfig) (oracle : Oracle)
    (limit : nat) :
  (forall i n, oracle i n = None) ->
  forall i n s,
    errors s = [] -> (rank n <= limit)%nat ->
    exists k final,
      invoke config (_build_workflow config) oracle limit i (Node n) s
      = (k, Some final) /\
      (1 <= k <= rank n)%nat /\
      errors final = [] /\
      remaining_steps final = remaining_steps s - Z.of_nat k /\
      length (results final) = (length (results s) + k)%nat /\
      Forall (fun t => (rank (tick_node t) <= rank n)%nat)
             (astream config (_build_workflow config) oracle limit i (Node n) s) /\
      NoDup (map tick_node
                 (astream config (_build_workflow config) oracle limit i (Node n) s)).
Proof.
  intros Hfault. induction limit as [|limit IH]; intros i n s He Hk.
  - destruct n; cbn in Hk; lia.
  - cbn [invoke astream]. rewrite Hfault.
    set (s' := node_action config n None s).
    assert (Hs' : errors s' = [] /\ remaining_steps s' = remaining_steps s - 1 /\
                  length (results s') = (length (results s) + 1)%nat).
    { subst s'. destruct (node_action_success config n s) as [r ->].
      cbn. rewrite length_app. auto. }
    destruct Hs' as (He' & Hr' & Hl').
    assert (Hnext : match next_node (_build_workflow config) n s' with
                    | END => True
                    | Node m => (rank m < rank n)%nat
                    end).
    { destruct (NodeName_eqb n reflection_agent) eqn:En.
      - assert (n = reflection_agent) as ->
            by (clear - En; destruct n; cbn in En; congruence).
        rewrite next_node_reflection. unfold route_policy. rewrite He'.
        destruct (reflection_enabled config), (remaining_steps s' <=? 0);
          exact I.
      - apply next_node_path. intros ->. discriminate. }
    destruct (next_node (_build_workflow config) n s') as [|m].
    + rewrite invoke_END, astream_END. exists 1%nat, s'.
      repeat split; try assumption; try lia.
      * destruct n; cbn; lia.
      * constructor; [cbn; lia | constructor].
      * cbn. constructor; [intros [] | constructor].
    + destruct (IH (S i) m s' He' ltac:(lia))
        as (k & final & -> & Hle & Hef & Hrf & Hlf & Hall & Hnd).
      exists (S k), final. repeat split; try assumption; try lia.
      * constructor; [cbn; lia|].
        eapply Forall_impl; [|exact Hall]. cbn. intros t Ht. lia.
      * cbn [map tick_node]. constructor; [|exact Hnd].
        intros Hin. apply in_map_iff in Hin. destruct Hin as (t & Ht & Hin).
        rewrite Forall_forall in Hall. specialize (Hall t Hin).
        rewrite Ht in Hall. lia.
Qed.

(** X12.  A run in which no node faults never takes the edge back from the
    reflection node, whatever max_iterations is (zero and negative values
    included): it returns after at most four invocations, no node is
    invoked twice, no error is recorded, each invocation adds one result,
    and the budget left is max_iterations less the number of invocations. *)
Theorem run_without_faults (config : IntegratedAgentConfig) (limit : nat)
    (oracle : Oracle) (ctx : ChatContext) :
  (forall i n, oracle i n = None) ->
  compile (_build_workflow config) <> None ->
  (4 <= limit)%nat ->
  exists k final,
    run_state config limit oracle ctx = (k, Some final) /\
    (1 <= k <= 4)%nat /\
    NoDup (map tick_node (run_ticks config limit oracle ctx)) /\
    errors final = [] /\
    length (results final) = k /\
    remaining_steps final = max_iterations config - Z.of_nat k.
Proof.
  intros Hfault Hc Hl. unfold run_state, run_ticks.
  rewrite (compile_built config Hc).
  unfold entry_target.
  destruct (entry_point (_build_workflow config)) as [n|] eqn:Hn;
    [|rewrite entry_point_built in Hn; discriminate].
  pose proof (entry_rank config n Hn) as Hk.
  destruct (invoke_fault_free config oracle limit Hfault 0 n
              (initial_state config ctx) eq_refl ltac:(lia))
    as (k & final & Hinv & Hle & Hef & Hrf & Hlf & _ & Hnd).
  exists k, final. repeat split; try assumption; lia.
Qed.

Lemma run_without_faults_witness :
  exists k final,
    run_state (mkConfig 0 [RESEARCH; CODE] true 2 []) 25 no_fault login_request
    = (k, Some final) /\ (1 <= k <= 4)%nat.
Proof.
  destruct (run_without_faults (mkConfig 0 [RESEARCH; CODE] true 2 []) 25
                               no_fault login_request)
    as (k & final & H & Hk & _); [reflexivity | discriminate | lia |].
  exists k, final. split; [exact H | exact Hk].
Defined.

(* ================================================================= *)
(** ** Further properties: the responses of a run *)

Lemma astream_forall (config : IntegratedAgentConfig) (g : StateGraph)
    (oracle : Oracle) (P : AgentState -> Prop) :
  (forall i n s, P s -> P (node_action config n (oracle i n) s)) ->
  forall limit i cur s,
    P s -> Forall (fun t => P (tick_state t)) (astream config g oracle limit i cur s).
Proof.
  intros Hstep limit. induction limit as [|limit IH]; intros i cur s Hs.
  - destruct cur; constructor.
  - destruct cur as [|n]; [constructor|]. cbn [astream].
    constructor; [now apply Hstep|]. apply IH. now apply Hstep.
Qed.



(** X14.  The only citations a run produces are the two sources of the
    research node: every citation of every response of the stream, and of
    the response of [run], is one of them. *)
Theorem run_citations_from_research (config : IntegratedAgentConfig)
    (limit : nat) (oracle : Oracle) (ctx : ChatContext) :
  Forall (fun r => incl (resp_citations r) research_sources)
         (run_stream config limit oracle ctx) /\
  match run config limit oracle ctx with
  | Some r => incl (resp_citations r) research_sources
  | None => True
  end.
Proof.
  set (P := fun s : AgentState =>
              Forall (fun r => incl (citations r) research_sources) (results s)).
  assert (Hticks : Forall (fun t => P (tick_state t))
                          (run_ticks config limit oracle ctx)).
  { unfold run_ticks.
    destruct (compile (_build_workflow config)) as [g|]; [|constructor].
    apply (astream_forall config g oracle P); [|constructor].
    intros i n s Hs. unfold P in *. destruct (oracle i n) as [e|].
    - rewrite node_action_fault. cbn [results]. apply Forall_app.
      split; [exact Hs|].
      destruct (recovery_placeholder n) as [r|] eqn:Er; [|constructor].
      destruct (fault_tolerance_level config >=? 2); [|constructor].
      constructor; [|constructor].
      destruct n; cbn in Er; try discriminate; injection Er as <-;
        intros c [].
    - destruct (node_action_success config n s) as [r Hr].
      assert (Hc : incl (citations r) research_sources).
      { apply (f_equal results) in Hr. cbn [results] in Hr.
        destruct n; cbn in Hr; apply app_inv_head in Hr;
          injection Hr as <-; cbn [citations].
        - intros c [].
        - apply incl_refl.
        - intros c [].
        - destruct (last_of (errors s)); intros c []. }
      rewrite Hr. cbn [results]. apply Forall_app. split; [exact Hs|].
      constructor; [exact Hc | constructor]. }
  assert (Hrender : forall s, P s ->
                              incl (resp_citations (to_chat_response s))
                                   research_sources).
  { intros s Hs c Hc. apply extract_citations_in in Hc.
    destruct Hc as (r & Hr & Hc). unfold P in Hs.
    rewrite Forall_forall in Hs. exact (Hs r Hr c Hc). }
  split.
  - eapply Forall_impl; [|apply run_stream_elements].
    intros r ->. cbn. auto using incl_nil_l.
  - unfold run.
    destruct (snd (run_state config limit oracle ctx)) as [final|] eqn:Hs;
      [|exact I].
    cbn [option_map]. apply Hrender.
    apply run_state_last_tick in Hs.
    destruct (last_of (run_ticks config limit oracle ctx)) as [t|] eqn:Ht;
      [|discriminate].
    injection Hs as <-. apply last_of_In in Ht.
    rewrite Forall_forall in Hticks. now apply Hticks.
Qed.

(* ================================================================= *)
(** ** Further properties: the planning agent *)

Lemma range_length (a b : Z) : length (Py.range a b) = Z.to_nat (b - a).
Proof. unfold Py.range. now rewrite length_map, length_seq. Qed.

Lemma seq_firstn (a n k : nat) : firstn k (seq a n) = seq a (Nat.min k n).
Proof.
  revert a k. induction n as [|n IH]; intros a k.
  - rewrite Nat.min_0_r. now destruct k.
  - destruct k as [|k]; [reflexivity|]. cbn. now rewrite IH.
Qed.

Lemma range_firstn (a b : Z) (k : nat) :
  (k <= Z.to_nat (b - a))%nat ->
  firstn k (Py.range a b) = Py.range a (a + Z.of_nat k).
Proof.
  intros Hk. unfold Py.range. rewrite firstn_map, seq_firstn.
  replace (Nat.min k (Z.to_nat (b - a))) with k by lia.
  replace (Z.to_nat (a + Z.of_nat k - a)) with k by lia. reflexivity.
Qed.

Lemma range_nth (a b : Z) (k : nat) (i : Z) :
  nth_error (Py.range a b) k = Some i ->
  i = a + Z.of_nat k /\ (k < Z.to_nat (b - a))%nat.
Proof.
  unfold Py.range. intros H.
  assert (Hk : (k < Z.to_nat (b - a))%nat).
  { assert (Hn : nth_error (map (fun k => a + Z.of_nat k)
                                (seq 0 (Z.to_nat (b - a)))) k <> None)
      by congruence.
    apply nth_error_Some in Hn. now rewrite length_map, length_seq in Hn. }
  split; [|exact Hk].
  rewrite nth_error_map in H.
  destruct (nth_error (seq 0 (Z.to_nat (b - a))) k) as [j|] eqn:Ej;
    [|discriminate].
  injection H as <-. apply nth_error_nth with (d := 0%nat) in Ej.
  rewrite seq_nth in Ej by exact Hk. subst j. reflexivity.
Qed.

Lemma create_plan_steps (config : PlanningAgent.PlanningAgentConfig)
    (query additional_context : string) :
  PlanningAgent.steps (PlanningAgent._create_plan config query additional_context)
  = map (PlanningAgent.make_step query)
        (Py.range 1 (Z.min 5 (PlanningAgent.max_steps config + 1))).
Proof.
  unfold PlanningAgent._create_plan.
  match goal with
  | |- PlanningAgent.steps (fold_left _ ?l ?p) = _ =>
      change (map (PlanningAgent.make_step query) l)
        with (PlanningAgent.steps p ++ map (PlanningAgent.make_step query) l);
      generalize p; generalize l
  end.
  intros l. induction l as [|i l IH]; intros p; cbn [fold_left map].
  - now rewrite app_nil_r.
  - rewrite IH. cbn. now rewrite <- app_assoc.
Qed.

(** X15.  A plan has one step for each number from 1 up to the smaller of 4
    and max_steps, in this order, with the identifiers step_1, step_2 and
    so on: never more than four steps (not five, as the comment in the
    source has it), and none when max_steps is zero or negative. *)
Theorem create_plan_step_count (config : PlanningAgent.PlanningAgentConfig)
    (query additional_context : string) :
  let plan := PlanningAgent._create_plan config query additional_context in
  length (PlanningAgent.steps plan)
  = Z.to_nat (Z.max 0 (Z.min 4 (PlanningAgent.max_steps config))) /\
  (length (PlanningAgent.steps plan) <= 4)%nat /\
  map PlanningAgent.step_id (PlanningAgent.steps plan)
  = map (fun i => "step_" ++ Py.str_of_int i)%string
        (Py.range 1 (1 + Z.max 0 (Z.min 4 (PlanningAgent.max_steps config)))).
Proof.
  cbv zeta. rewrite create_plan_steps, length_map, range_length, map_map.
  cbn [PlanningAgent.make_step PlanningAgent.step_id].
  split; [lia|]. split; [lia|].
  unfold Py.range.
  replace (Z.to_nat (1 + Z.max 0 (Z.min 4 (PlanningAgent.max_steps config)) - 1))
    with (Z.to_nat (Z.min 5 (PlanningAgent.max_steps config + 1) - 1)) by lia.
  reflexivity.
Qed.

Lemma create_plan_ids_cases (config : PlanningAgent.PlanningAgentConfig) :
  let ids := map (fun i => "step_" ++ Py.str_of_int i)%string
                 (Py.range 1 (Z.min 5 (PlanningAgent.max_steps config + 1))) in
  ids = [] \/ ids = ["step_1"] \/ ids = ["step_1"; "step_2"]
  \/ ids = ["step_1"; "step_2"; "step_3"]
  \/ ids = ["step_1"; "step_2"; "step_3"; "step_4"].
Proof.
  cbv zeta. unfold Py.range.
  assert (H : (Z.to_nat (Z.min 5 (PlanningAgent.max_steps config + 1) - 1) <= 4)%nat)
    by lia.
  destruct (Z.to_nat (Z.min 5 (PlanningAgent.max_steps config + 1) - 1))
    as [|[|[|[|[|n]]]]]; [auto | auto | auto | auto | auto 6 | lia].
Qed.

(** X16.  The steps of a plan have distinct identifiers, and every
    dependency of a step is the identifier of a step that comes before it
    in the plan: no step depends on itself, on a later step, or on a step
    the plan does not have. *)
Theorem create_plan_dependencies (config : PlanningAgent.PlanningAgentConfig)
    (query additional_context : string) (k : nat) (step : PlanningAgent.PlanStep) :
  let plan := PlanningAgent._create_plan config query additional_context in
  nth_error (PlanningAgent.steps plan) k = Some step ->
  incl (PlanningAgent.dependencies step)
       (map PlanningAgent.step_id (firstn k (PlanningAgent.steps plan))) /\
  NoDup (map PlanningAgent.step_id (PlanningAgent.steps plan)).
Proof.
  cbv zeta. rewrite create_plan_steps. intros Hk. split.
  - rewrite nth_error_map in Hk.
    destruct (nth_error (Py.range 1 _) k) as [i|] eqn:Ei; [|discriminate].
    injection Hk as <-. apply range_nth in Ei. destruct Ei as [-> Hlt].
    rewrite firstn_map, range_firstn by lia. rewrite map_map.
    cbn [PlanningAgent.make_step PlanningAgent.dependencies PlanningAgent.step_id].
    intros d Hd. apply in_map_iff in Hd. destruct Hd as (j & <- & Hj).
    apply filter_In in Hj. destruct Hj as [Hj _].
    apply in_map_iff. now exists j.
  - rewrite map_map. cbn [PlanningAgent.make_step PlanningAgent.step_id].
    destruct (create_plan_ids_cases config) as [H | [H | [H | [H | H]]]];
      cbv zeta in H; rewrite H; repeat constructor; cbn;
      intuition discriminate.
Qed.

Lemma create_plan_dependencies_witness :
  incl ["step_2"] ["step_1"; "step_2"; "step_3"].
Proof.
  exact (proj1 (create_plan_dependencies
                  (PlanningAgent.mkPlanningConfig 10 "medium" true true)
                  "build a login page" "none" 3 _ eq_refl)).
Defined.

Lemma string_app_assoc (a b c : string) : ((a ++ b) ++ c = a ++ (b ++ c))%string.
Proof. induction a as [|x a IH]; cbn; [reflexivity | now rewrite IH]. Qed.

Lemma string_app_nil_r (a : string) : (a ++ EmptyString)%string = a.
Proof. induction a as [|x a IH]; cbn; [reflexivity | now rewrite IH]. Qed.

Lemma occurs_refl (a : string) : PyStr.occurs a a.
Proof. exists EmptyString, EmptyString. cbn. now rewrite string_app_nil_r. Qed.

Lemma occurs_in_app (p a b c : string) :
  PyStr.occurs p b -> PyStr.occurs p (a ++ b ++ c).
Proof.
  intros (pre & post & ->). exists (a ++ pre)%string, (post ++ c)%string.
  now rewrite !string_app_assoc.
Qed.

Lemma occurs_prefix (p a b : string) : PyStr.occurs p a -> PyStr.occurs p (a ++ b).
Proof.
  intros H. apply (occurs_in_app p EmptyString a b) in H. exact H.
Qed.

Lemma occurs_suffix (p a b : string) : PyStr.occurs p b -> PyStr.occurs p (a ++ b).
Proof.
  intros H. apply (occurs_in_app p a b EmptyString) in H.
  now rewrite string_app_nil_r in H.
Qed.

(** A part of a joined text occurs in it. *)
Lemma join_occurs (sep p : string) (parts : list string) :
  In p parts -> PyStr.occurs p (PyStr.join sep parts).
Proof.
  induction parts as [|q parts IH]; [intros []|].
  intros [-> | Hin].
  - destruct parts as [|q' parts]; [apply occurs_refl|].
    cbn [PyStr.join]. apply occurs_prefix, occurs_refl.
  - destruct parts as [|q' parts]; [destruct Hin|].
    cbn [PyStr.join]. apply occurs_suffix, occurs_suffix. now apply IH.
Qed.

(** A joined text begins with its first part. *)
Lemma join_startswith (sep p : string) (parts : list string) :
  PyStr.startswith p (PyStr.join sep (p :: parts)) = true.
Proof.
  apply PyStrFacts.startswith_iff.
  destruct parts as [|q parts]; cbn [PyStr.join].
  - exists EmptyString. now rewrite string_app_nil_r.
  - now eexists.
Qed.

Lemma plan_parts_steps (l : list PlanningAgent.PlanStep) (parts : list string) :
  fold_left
    (fun parts step =>
       parts ++ [ PyStr.nl ++ "### " ++ PlanningAgent.step_title step
                  ++ PlanningAgent.dependencies_text step;
                  "**Effort**: " ++ PlanningAgent.estimated_effort step;
                  PyStr.nl ++ PlanningAgent.step_description step ]%string)
    l parts
  = parts ++ flat_map
               (fun step =>
                  [ PyStr.nl ++ "### " ++ PlanningAgent.step_title step
                    ++ PlanningAgent.dependencies_text step;
                    "**Effort**: " ++ PlanningAgent.estimated_effort step;
                    PyStr.nl ++ PlanningAgent.step_description step ]%string)
               l.
Proof.
  revert parts. induction l as [|st l IH]; intros parts; cbn [fold_left flat_map].
  - now rewrite app_nil_r.
  - now rewrite IH, <- app_assoc.
Qed.

(** X17.  The text of a plan begins with its title line, has the heading
    of the implementation steps even when the plan has no step, and loses
    nothing: every constraint and every assumption occurs in it as a list
    item, and every step occurs with its title, the text of its
    dependencies, its effort and its description. *)
Theorem format_plan_complete (plan : PlanningAgent.Plan) :
  let text := PlanningAgent._format_plan plan in
  PyStr.startswith ("# " ++ PlanningAgent.title plan) text = true /\
  PyStr.occurs (PlanningAgent.description plan) text /\
  PyStr.occurs "## Implementation Steps" text /\
  (forall c, In c (PlanningAgent.constraints plan) -> PyStr.occurs ("- " ++ c) text) /\
  (forall a, In a (PlanningAgent.assumptions plan) -> PyStr.occurs ("- " ++ a) text) /\
  (forall step, In step (PlanningAgent.steps plan) ->
      PyStr.occurs ("### " ++ PlanningAgent.step_title step
                    ++ PlanningAgent.dependencies_text step) text /\
      PyStr.occurs ("**Effort**: " ++ PlanningAgent.estimated_effort step) text /\
      PyStr.occurs (PlanningAgent.step_description step) text).
Proof.
  cbv zeta. unfold PlanningAgent._format_plan.
  assert (Hparts :
            exists rest,
              PlanningAgent.plan_parts plan
              = ("# " ++ PlanningAgent.title plan)%string :: rest /\
              In (PyStr.nl ++ "## Description" ++ PyStr.nl
                  ++ PlanningAgent.description plan)%string rest /\
              In (PyStr.nl ++ "## Implementation Steps")%string rest /\
              (forall c, In c (PlanningAgent.constraints plan) ->
                         In ("- " ++ c)%string rest) /\
              (forall a, In a (PlanningAgent.assumptions plan) ->
                         In ("- " ++ a)%string rest) /\
              (forall step, In step (PlanningAgent.steps plan) ->
                 In (PyStr.nl ++ "### " ++ PlanningAgent.step_title step
                     ++ PlanningAgent.dependencies_text step)%string rest /\
                 In ("**Effort**: " ++ PlanningAgent.estimated_effort step)%string rest /\
                 In (PyStr.nl ++ PlanningAgent.step_description step)%string rest)).
  { unfold PlanningAgent.plan_parts. rewrite plan_parts_steps.
    destruct (PlanningAgent.constraints plan) as [|c cs];
      destruct (PlanningAgent.assumptions plan) as [|a asms];
      cbn [app]; eexists; (split; [reflexivity|]);
      repeat split; try (intros x []);
      try (intros x Hx);
      repeat (rewrite in_app_iff || rewrite in_map_iff
              || rewrite in_flat_map || cbn [In]);
      eauto 12. }
  destruct Hparts as (rest & -> & Hd & Hs & Hc & Ha & Hst).
  split; [apply join_startswith|].
  assert (Hin : forall p q, In q rest -> PyStr.occurs p q ->
                            PyStr.occurs p (PyStr.join PyStr.nl
                                              (("# " ++ PlanningAgent.title plan)%string
                                               :: rest))).
  { intros p q Hq Hocc.
    destruct (join_occurs PyStr.nl q _
                (in_cons ("# " ++ PlanningAgent.title plan)%string q rest Hq))
      as (pre' & post' & E).
    destruct Hocc as (pre & post & ->). rewrite E.
    exists (pre' ++ pre)%string, (post ++ post')%string.
    now rewrite !string_app_assoc. }
  split; [eapply Hin; [exact Hd|];
          apply occurs_suffix, occurs_suffix, occurs_suffix, occurs_refl|].
  split; [eapply Hin; [exact Hs|]; apply occurs_suffix, occurs_refl|].
  split; [intros c Hcin; eapply Hin; [exact (Hc c Hcin)|]; apply occurs_refl|].
  split; [intros a Hain; eapply Hin; [exact (Ha a Hain)|]; apply occurs_refl|].
  intros step Hstep. destruct (Hst step Hstep) as (H1 & H2 & H3).
  repeat split.
  - eapply Hin; [exact H1|]. apply occurs_suffix, occurs_refl.
  - eapply Hin; [exact H2|]. apply occurs_refl.
  - eapply Hin; [exact H3|]. apply occurs_suffix, occurs_refl.
Qed.

(* ================================================================= *)
(** ** Further properties: the research agent *)

Import PrimFloat.

Lemma slice_to_firstn {A : Type} (xs : list A) (k : Z) :
  exists n,
    Py.slice_to xs k = firstn n xs /\
    n = if k <? 0 then (length xs - Z.to_nat (- k))%nat else Z.to_nat k.
Proof.
  unfold Py.slice_to. destruct (Z.ltb_spec k 0); eexists; split;
    try reflexivity. f_equal. lia.
Qed.

Lemma candidates_length (config : ResearchAgent.ResearchAgentConfig)
    (ctx : ChatContext) :
  (length (ResearchAgent.candidates config ctx) <= 6)%nat.
Proof.
  unfold ResearchAgent.candidates.
  destruct (ResearchAgent.include_web_search config),
    (ResearchAgent.include_code_search config),
    (ResearchAgent.include_documentation config); cbn; lia.
Qed.

(** X18.  The results gathered are the first ones of the relevant
    candidates, in the order web, code, documentation: every one of them
    reaches the minimum relevance, and the limit cuts at the end of that
    order, whatever the relevance of what is cut.  There are at most
    max_sources of them when max_sources is not negative; a negative
    max_sources instead drops that many results from the end. *)
Theorem gather_information_bounds (config : ResearchAgent.ResearchAgentConfig)
    (ctx : ChatContext) :
  let relevant_candidates :=
    filter (ResearchAgent.relevant config) (ResearchAgent.candidates config ctx) in
  let results := ResearchAgent._gather_information config ctx in
  Forall (fun r => ResearchAgent.relevant config r = true) results /\
  (exists dropped, relevant_candidates = results ++ dropped) /\
  length results
  = (if ResearchAgent.max_sources config <? 0
     then (length relevant_candidates
           - Z.to_nat (- ResearchAgent.max_sources config))%nat
     else Nat.min (Z.to_nat (ResearchAgent.max_sources config))
                  (length relevant_candidates)) /\
  (length results <= 6)%nat.
Proof.
  cbv zeta. unfold ResearchAgent._gather_information.
  set (F := filter (ResearchAgent.relevant config)
                   (ResearchAgent.candidates config ctx)).
  destruct (slice_to_firstn F (ResearchAgent.max_sources config)) as (n & -> & Hn).
  assert (HF : (length F <= 6)%nat).
  { subst F. pose proof (candidates_length config ctx).
    pose proof (filter_length_le (ResearchAgent.relevant config)
                                 (ResearchAgent.candidates config ctx)). lia. }
  split; [|split; [|split]].
  - apply Forall_forall. intros r Hr.
    assert (Hin : In r F).
    { rewrite <- (firstn_skipn n F). apply in_or_app. now left. }
    subst F. now apply filter_In in Hin.
  - exists (skipn n F). now rewrite firstn_skipn.
  - rewrite length_firstn, Hn.
    destruct (ResearchAgent.max_sources config <? 0); lia.
  - rewrite length_firstn. lia.
Qed.

(** X19.  When max_sources is zero, or when the three searches are all
    switched off, nothing is gathered: the response says that no relevant
    information was found for the query, and has no citation. *)
Theorem research_nothing_found
    (sorted_by_relevance : list ResearchAgent.ResearchResult ->
                           list ResearchAgent.ResearchResult)
    (config : ResearchAgent.ResearchAgentConfig) (ctx : ChatContext) :
  ResearchAgent.max_sources config = 0 \/
  (ResearchAgent.include_web_search config = false /\
   ResearchAgent.include_code_search config = false /\
   ResearchAgent.include_documentation config = false) ->
  ResearchAgent.run sorted_by_relevance config ctx
  = mkResponse ("I couldn't find any relevant information for your query: "
                ++ ctx_query ctx) [] [].
Proof.
  intros H.
  assert (Hnone : ResearchAgent._gather_information config ctx = []).
  { unfold ResearchAgent._gather_information.
    destruct H as [H0 | (Hw & Hc & Hd)].
    - rewrite H0. unfold Py.slice_to. reflexivity.
    - unfold ResearchAgent.candidates. rewrite Hw, Hc, Hd. cbn.
      unfold Py.slice_to.
      destruct (ResearchAgent.max_sources config <? 0); apply firstn_nil. }
  unfold ResearchAgent.run, ResearchAgent._synthesize_results.
  now rewrite Hnone.
Qed.

Lemma research_nothing_found_witness :
  ResearchAgent.run (fun l => l)
    (ResearchAgent.mkResearchConfig 0 0.7%float 2 true true true) login_request
  = mkResponse
      "I couldn't find any relevant information for your query: build a login page"
      [] [].
Proof.
  apply (research_nothing_found (fun l => l)
           (ResearchAgent.mkResearchConfig 0 0.7%float 2 true true true)
           login_request).
  left. reflexivity.
Defined.

Lemma in_enumerate {A : Type} (xs : list A) (x : A) (start : Z) :
  In x xs -> exists i, In (i, x) (Py.enumerate xs start).
Proof.
  unfold Py.enumerate, Py.range.
  replace (Z.to_nat (start + Z.of_nat (length xs) - start)) with (length xs) by lia.
  generalize 0%nat as k.
  induction xs as [|y xs IH]; intros k; [intros []|].
  cbn [length seq map combine]. intros [-> | Hin].
  - eexists. left. reflexivity.
  - destruct (IH (S k) Hin) as [i Hi]. exists i. now right.
Qed.

Lemma research_parts_from (l : list (Z * ResearchAgent.ResearchResult))
    (parts : list string) :
  fold_left
    (fun parts ir =>
       parts ++ [ Py.str_of_int (fst ir) ++ ". "
                  ++ ResearchAgent.content (snd ir)
                  ++ " (Source: " ++ ResearchAgent.source (snd ir) ++ ")" ]%string)
    l parts
  = parts ++ map (fun ir =>
                    Py.str_of_int (fst ir) ++ ". "
                    ++ ResearchAgent.content (snd ir)
                    ++ " (Source: " ++ ResearchAgent.source (snd ir) ++ ")")%string
                 l.
Proof.
  revert parts. induction l as [|ir l IH]; intros parts; cbn [fold_left map].
  - now rewrite app_nil_r.
  - now rewrite IH, <- app_assoc.
Qed.

(** X20.  Provided sorting loses no result, the text made from a list of
    results that is not empty begins with the line that names the query
    and has, for every result, an entry with its content and its source. *)
Theorem synthesize_results_complete
    (sorted_by_relevance : list ResearchAgent.ResearchResult ->
                           list ResearchAgent.ResearchResult)
    (results : list ResearchAgent.ResearchResult) (query : string) :
  (forall l r, In r l -> In r (sorted_by_relevance l)) ->
  results <> [] ->
  let text := ResearchAgent._synthesize_results sorted_by_relevance results query in
  PyStr.startswith ("Here's what I found about your query: " ++ query) text = true /\
  forall r, In r results ->
            PyStr.occurs (". " ++ ResearchAgent.content r ++ " (Source: "
                          ++ ResearchAgent.source r ++ ")") text.
Proof.
  intros Hsorted Hne. cbv zeta.
  unfold ResearchAgent._synthesize_results.
  destruct results as [|r0 rs]; [congruence|].
  unfold ResearchAgent.response_parts. rewrite research_parts_from.
  cbn [app]. split.
  - apply PyStrFacts.startswith_iff.
    pose proof (join_startswith blank_line
                  ("Here's what I found about your query: " ++ query ++ PyStr.nl)%string
                  (map (fun ir =>
                          Py.str_of_int (fst ir) ++ ". "
                          ++ ResearchAgent.content (snd ir)
                          ++ " (Source: " ++ ResearchAgent.source (snd ir) ++ ")")%string
                       (Py.enumerate (sorted_by_relevance (r0 :: rs)) 1))) as H.
    apply PyStrFacts.startswith_iff in H. destruct H as [post H].
    exists (PyStr.nl ++ post)%string. rewrite H.
    now rewrite !string_app_assoc.
  - intros r Hr.
    destruct (in_enumerate _ r 1 (Hsorted _ r Hr)) as [i Hi].
    match goal with
    | |- PyStr.occurs ?p (PyStr.join ?sep (?hd :: map ?f ?l)) =>
        assert (Hin : In (f (i, r)) (hd :: map f l))
          by (right; apply in_map_iff; now exists (i, r));
        destruct (join_occurs sep _ _ Hin) as (pre & post & E)
    end.
    rewrite E. cbn [fst snd].
    exists (pre ++ Py.str_of_int i)%string, post.
    now rewrite !string_app_assoc.
Qed.

Lemma synthesize_results_complete_witness :
  PyStr.startswith
    "Here's what I found about your query: q"
    (ResearchAgent._synthesize_results
       (fun l => l) (ResearchAgent._perform_web_search "q") "q")
  = true.
Proof.
  apply (synthesize_results_complete
           (fun l => l) (ResearchAgent._perform_web_search "q") "q").
  - intros l r H. exact H.
  - discriminate.
Defined.

(* ================================================================= *)
(** ** Further properties: the reflection agent *)

(** The scores the evaluation can give, by the number of weaknesses. *)
Lemma score_by_weaknesses (strengths weaknesses : list string) :
  (length strengths + length weaknesses = 4)%nat ->
  ReflectionAgent.score strengths weaknesses
  = nth (length weaknesses)
        [ 0.90000000000000002%float; 0.70000000000000007%float;
          0.49999999999999994%float; 0.29999999999999993%float;
          0.099999999999999978%float ]
        0%float.
Proof.
  intros H. unfold ReflectionAgent.score.
  destruct (length weaknesses) as [|[|[|[|[|w]]]]] eqn:Ew; try lia.
  - replace (length strengths) with 4%nat by lia. reflexivity.
  - replace (length strengths) with 3%nat by lia. reflexivity.
  - replace (length strengths) with 2%nat by lia. reflexivity.
  - replace (length strengths) with 1%nat by lia. reflexivity.
  - replace (length strengths) with 0%nat by lia. reflexivity.
Qed.

Lemma evaluation_lists_counts (lower : string -> string) (content query : string) :
  let '(strengths, weaknesses, improvement_suggestions) :=
    ReflectionAgent.evaluation_lists lower content query in
  (length strengths + length weaknesses = 4)%nat /\
  length improvement_suggestions = length weaknesses /\
  (Py.len content < 100 -> weaknesses <> [])%nat.
Proof.
  unfold ReflectionAgent.evaluation_lists, ReflectionAgent.check.
  destruct (PyStr.contains "error" (lower content)
            || PyStr.contains "incorrect" (lower content));
    destruct (Nat.ltb_spec (Py.len content) 100);
    destruct (PyStr.contains "unclear" (lower content)
              || PyStr.contains "confusing" (lower content));
    destruct (negb (PyStr.contains (lower query) (lower content)));
    cbn; repeat split; try lia; try discriminate.
Qed.

(** X21.  Each of the four checks of an evaluation yields exactly one
    strength or one weakness, and every weakness comes with one
    suggestion: strengths and weaknesses number four together, and there
    are as many suggestions as weaknesses. *)
Theorem evaluate_content_counts (lower : string -> string)
    (config : ReflectionAgent.ReflectionAgentConfig) (content query : string) :
  let feedback := ReflectionAgent._evaluate_content lower config content query in
  (length (ReflectionAgent.strengths feedback)
   + length (ReflectionAgent.weaknesses feedback) = 4)%nat /\
  length (ReflectionAgent.improvement_suggestions feedback)
  = length (ReflectionAgent.weaknesses feedback).
Proof.
  cbv zeta. unfold ReflectionAgent._evaluate_content.
  pose proof (evaluation_lists_counts lower content query) as H.
  destruct (ReflectionAgent.evaluation_lists lower content query) as [[s w] i].
  cbn. tauto.
Qed.

(** X22.  The quality score depends on the number of weaknesses alone and
    is computed in binary floating point: with 0, 1, 2, 3 and 4 weaknesses
    it is 0.9, 0.7000000000000001, 0.49999999999999994, 0.29999999999999993
    and 0.09999999999999998.  It lies between 0 and 1, so the clamping
    never changes it, and the revision flag says whether it is below the
    configured threshold. *)
Theorem evaluate_content_score (lower : string -> string)
    (config : ReflectionAgent.ReflectionAgentConfig) (content query : string) :
  let feedback := ReflectionAgent._evaluate_content lower config content query in
  ReflectionAgent.quality_score feedback
  = nth (length (ReflectionAgent.weaknesses feedback))
        [ 0.90000000000000002%float; 0.70000000000000007%float;
          0.49999999999999994%float; 0.29999999999999993%float;
          0.099999999999999978%float ]
        0%float /\
  PrimFloat.leb 0%float (ReflectionAgent.quality_score feedback) = true /\
  PrimFloat.leb (ReflectionAgent.quality_score feedback) 1%float = true /\
  ReflectionAgent.needs_revision feedback
  = PrimFloat.ltb (ReflectionAgent.quality_score feedback)
                  (ReflectionAgent.quality_threshold config).
Proof.
  cbv zeta. unfold ReflectionAgent._evaluate_content.
  pose proof (evaluation_lists_counts lower content query) as H.
  destruct (ReflectionAgent.evaluation_lists lower content query) as [[s w] i].
  destruct H as (H4 & _ & _).
  cbn [ReflectionAgent.quality_score ReflectionAgent.weaknesses
       ReflectionAgent.needs_revision].
  rewrite (score_by_weaknesses s w H4).
  repeat split.
  - destruct (length w) as [|[|[|[|[|n]]]]]; try reflexivity; lia.
  - destruct (length w) as [|[|[|[|[|n]]]]]; try reflexivity; lia.
Qed.

(** X23.  With the default threshold 0.8 a content needs revision exactly
    when it has a weakness; so every content shorter than 100 characters
    needs revision, whatever it says.  With the threshold 0.5 a content
    with two weaknesses needs revision too, its score being just below
    one half. *)
Theorem evaluate_content_revision (lower : string -> string)
    (config : ReflectionAgent.ReflectionAgentConfig) (content query : string) :
  let feedback := ReflectionAgent._evaluate_content lower config content query in
  (ReflectionAgent.quality_threshold config = 0.8%float ->
   ReflectionAgent.needs_revision feedback
   = negb (Nat.eqb (length (ReflectionAgent.weaknesses feedback)) 0) /\
   ((Py.len content < 100)%nat -> ReflectionAgent.needs_revision feedback = true)) /\
  (ReflectionAgent.quality_threshold config = 0.5%float ->
   ReflectionAgent.needs_revision feedback
   = Nat.leb 2 (length (ReflectionAgent.weaknesses feedback))).
Proof.
  cbv zeta. unfold ReflectionAgent._evaluate_content.
  pose proof (evaluation_lists_counts lower content query) as H.
  destruct (ReflectionAgent.evaluation_lists lower content query) as [[s w] i].
  destruct H as (H4 & _ & Hbrief).
  cbn [ReflectionAgent.quality_score ReflectionAgent.weaknesses
       ReflectionAgent.needs_revision].
  rewrite (score_by_weaknesses s w H4).
  split; intros Ht; rewrite Ht.
  - assert (Hrev : PrimFloat.ltb
                     (nth (length w)
                          [ 0.90000000000000002%float; 0.70000000000000007%float;
                            0.49999999999999994%float; 0.29999999999999993%float;
                            0.099999999999999978%float ] 0%float)
                     0.8%float
                   = negb (Nat.eqb (length w) 0)).
    { destruct (length w) as [|[|[|[|[|n]]]]]; try reflexivity; lia. }
    split; [exact Hrev|].
    intros Hlen. rewrite Hrev. specialize (Hbrief Hlen).
    destruct w; [congruence | reflexivity].
  - destruct (length w) as [|[|[|[|[|n]]]]]; try reflexivity; lia.
Qed.

Lemma evaluate_content_revision_witness :
  ReflectionAgent.needs_revision
    (ReflectionAgent._evaluate_content
       PyStr.lower
       (ReflectionAgent.mkReflectionConfig 0.8%float [] true)
       "No content to reflect on." "build a login page")
  = true.
Proof.
  apply (proj1 (evaluate_content_revision
                  PyStr.lower
                  (ReflectionAgent.mkReflectionConfig 0.8%float [] true)
                  "No content to reflect on." "build a login page")).
  - reflexivity.
  - apply Nat.ltb_lt. reflexivity.
Defined.

(** A joined text ends with its last part. *)
Lemma join_endswith (sep p : string) (parts : list string) :
  exists pre, PyStr.join sep (parts ++ [p]) = (pre ++ p)%string.
Proof.
  induction parts as [|q parts IH].
  - now exists EmptyString.
  - destruct IH as [pre IH]. cbn [app].
    destruct (parts ++ [p]) as [|q' rest] eqn:E;
      [now destruct parts|].
    change (PyStr.join sep (q :: q' :: rest))
      with (q ++ sep ++ PyStr.join sep (q' :: rest))%string.
    rewrite IH. exists (q ++ sep ++ pre)%string. now rewrite !string_app_assoc.
Qed.

(** X24.  The text of a feedback begins with its heading and ends with the
    verdict that goes with the revision flag: the request to revise when
    revision is needed, and the statement that the content is ready for
    use when it is not. *)
Theorem format_feedback_verdict (format_score : PrimFloat.float -> string)
    (config : ReflectionAgent.ReflectionAgentConfig)
    (feedback : ReflectionAgent.ReflectionFeedback) :
  let text := ReflectionAgent._format_feedback format_score config feedback in
  PyStr.startswith "# Reflection Feedback" text = true /\
  exists pre,
    text = (pre ++ if ReflectionAgent.needs_revision feedback
                   then "Please revise the content based on the feedback above."
                   else "The content meets the quality threshold and is ready for use.")%string.
Proof.
  cbv zeta. unfold ReflectionAgent._format_feedback, ReflectionAgent.feedback_parts.
  split.
  - destruct (ReflectionAgent.detailed_feedback config),
      (ReflectionAgent.needs_revision feedback); cbn [app];
      apply join_startswith.
  - destruct (ReflectionAgent.needs_revision feedback);
      match goal with
      | |- exists pre, PyStr.join ?sep (?l ++ [?a; ?b]) = _ =>
          replace (l ++ [a; b]) with ((l ++ [a]) ++ [b])
            by (now rewrite <- app_assoc);
          apply join_endswith
      end.
Qed.

(* ================================================================= *)
(** ** Further properties: the agent factory *)

Lemma AgentType_of_value_inv (v : string) (t : AgentType) :
  AgentFactory.AgentType_of_value v = Some t -> v = AgentType_value t.
Proof.
  unfold AgentFactory.AgentType_of_value.
  destruct (String.eqb_spec v "code"); [intros [= <-]; assumption|].
  destruct (String.eqb_spec v "research"); [intros [= <-]; assumption|].
  destruct (String.eqb_spec v "planning"); [intros [= <-]; assumption|].
  destruct (String.eqb_spec v "reflection"); [intros [= <-]; assumption|].
  discriminate.
Qed.

Lemma AgentType_of_value_value (t : AgentType) :
  AgentFactory.AgentType_of_value (AgentType_value t) = Some t.
Proof. destruct t; reflexivity. Qed.

(** X25.  The values of the agent types identify them: a string is
    converted to a member exactly when it is the value of that member, so
    converting the value of a member gives the member back, and a string
    stands for the same agent type as the member it names. *)
Theorem agent_type_of_value_round_trip :
  (forall t, AgentFactory.AgentType_of_value (AgentType_value t) = Some t) /\
  (forall v t, AgentFactory.AgentType_of_value v = Some t <-> v = AgentType_value t) /\
  (forall t, AgentFactory.convert (AgentFactory.Str (AgentType_value t))
             = AgentFactory.convert (AgentFactory.Member t)).
Proof.
  split; [exact AgentType_of_value_value|]. split.
  - intros v t. split; [apply AgentType_of_value_inv|].
    intros ->. apply AgentType_of_value_value.
  - intros t. cbn. now rewrite AgentType_of_value_value.
Qed.

Lemma convert_all_ok (l : list AgentFactory.TypeArg) :
  (forall s, In (AgentFactory.Str s) l ->
             AgentFactory.AgentType_of_value s <> None) ->
  exists ts, AgentFactory.convert_all l = AgentFactory.Ok ts /\
             Forall2 (fun a t => a = AgentFactory.Member t \/
                                 a = AgentFactory.Str (AgentType_value t))
                     l ts.
Proof.
  induction l as [|a l IH]; intros H.
  - exists []. split; [reflexivity | constructor].
  - destruct IH as (ts & Hts & Hall).
    { intros s Hs. apply H. now right. }
    cbn [AgentFactory.convert_all]. rewrite Hts.
    destruct a as [s|t0]; cbn [AgentFactory.convert].
    + destruct (AgentFactory.AgentType_of_value s) as [t0|] eqn:Es;
        [|now elim (H s (or_introl eq_refl))].
      apply AgentType_of_value_inv in Es. subst s.
      exists (t0 :: ts). split; [reflexivity|]. constructor; auto.
    + exists (t0 :: ts). split; [reflexivity|]. constructor; auto.
Qed.

Lemma convert_all_raise (l : list AgentFactory.TypeArg) (s : string) :
  In (AgentFactory.Str s) l ->
  AgentFactory.AgentType_of_value s = None ->
  exists bad,
    AgentFactory.convert_all l = AgentFactory.Raise (AgentFactory.InvalidAgentType bad) /\
    In (AgentFactory.Str bad) l /\
    AgentFactory.AgentType_of_value bad = None.
Proof.
  induction l as [|a l IH]; intros Hin Hs; [destruct Hin|].
  cbn [AgentFactory.convert_all].
  destruct a as [s0|t0]; cbn [AgentFactory.convert].
  - destruct (AgentFactory.AgentType_of_value s0) as [t0|] eqn:E0.
    + destruct Hin as [[= ->] | Hin]; [congruence|].
      destruct (IH Hin Hs) as (bad & -> & Hb & Hn).
      exists bad. repeat split; [now right | exact Hn].
    + exists s0. repeat split; [now left | exact E0].
  - destruct Hin as [Hd | Hin]; [discriminate|].
    destruct (IH Hin Hs) as (bad & -> & Hb & Hn).
    exists bad. repeat split; [now right | exact Hn].
Qed.

(** X26.  When no agent types are given (the argument is left out or is
    the empty list) the factory always delivers an agent: its only role is
    code, its graph has the code node as entry and, if reflection is
    enabled, the reflection node; the other arguments are passed on, with
    no tools when none are given. *)
Theorem create_integrated_agent_default
    (agent_types : option (list AgentFactory.TypeArg))
    (max_iterations : Z) (reflection_enabled : bool) (fault_tolerance_level : Z)
    (tools : option (list string))
    (agent_id agent_name agent_description : string) :
  agent_types = None \/ agent_types = Some [] ->
  exists g,
    AgentFactory.create_integrated_agent
      agent_types max_iterations reflection_enabled fault_tolerance_level tools
      agent_id agent_name agent_description
    = AgentFactory.Ok
        (AgentFactory.mkAgentWithInfo
           (AgentFactory.mkAgent
              (mkConfig max_iterations [CODE] reflection_enabled
                        fault_tolerance_level (get_or tools []))
              g)
           agent_id agent_name agent_description) /\
    entry_point g = Some code_agent /\
    nodes g = code_agent :: (if reflection_enabled then [reflection_agent] else []).
Proof.
  intros H.
  exists (_build_workflow (mkConfig max_iterations [CODE] reflection_enabled
                                    fault_tolerance_level (get_or tools []))).
  assert (Htools : match tools with Some (t :: ts) => t :: ts | _ => [] end
                   = get_or tools []).
  { destruct tools as [[|t ts]|]; reflexivity. }
  unfold AgentFactory.create_integrated_agent, AgentFactory.DefaultIntegratedAgent.
  rewrite Htools.
  destruct H as [-> | ->]; rewrite compile_built_iff;
    destruct reflection_enabled; repeat split.
Qed.

Lemma create_integrated_agent_default_witness :
  exists g,
    AgentFactory.create_integrated_agent None 5 true 2 None
      "integrated_agent" "Integrated Agent"
      "An agent that combines multiple specialized agents"
    = AgentFactory.Ok
        (AgentFactory.mkAgentWithInfo
           (AgentFactory.mkAgent (mkConfig 5 [CODE] true 2 []) g)
           "integrated_agent" "Integrated Agent"
           "An agent that combines multiple specialized agents").
Proof.
  destruct (create_integrated_agent_default
              None 5 true 2 None "integrated_agent" "Integrated Agent"
              "An agent that combines multiple specialized agents"
              (or_introl eq_refl)) as (g & H & _).
  exists g. exact H.
Defined.

(** X27.  When some string among the agent types is the value of no agent
    type, the factory raises the error of such a string and delivers no
    agent, whatever the other arguments are. *)
Theorem create_integrated_agent_invalid_type
    (agent_types : list AgentFactory.TypeArg) (s : string)
    (max_iterations : Z) (reflection_enabled : bool) (fault_tolerance_level : Z)
    (tools : option (list string))
    (agent_id agent_name agent_description : string) :
  In (AgentFactory.Str s) agent_types ->
  AgentFactory.AgentType_of_value s = None ->
  exists bad,
    AgentFactory.create_integrated_agent
      (Some agent_types) max_iterations reflection_enabled fault_tolerance_level
      tools agent_id agent_name agent_description
    = AgentFactory.Raise (AgentFactory.InvalidAgentType bad) /\
    In (AgentFactory.Str bad) agent_types /\
    AgentFactory.AgentType_of_value bad = None.
Proof.
  intros Hin Hs.
  destruct (convert_all_raise agent_types s Hin Hs) as (bad & Hc & Hb & Hn).
  exists bad. split; [|split; assumption].
  unfold AgentFactory.create_integrated_agent.
  destruct agent_types as [|a l]; [destruct Hin|]. now rewrite Hc.
Qed.

Lemma create_integrated_agent_invalid_type_witness :
  exists bad,
    AgentFactory.create_integrated_agent
      (Some [AgentFactory.Member CODE; AgentFactory.Str "coding"]) 5 true 2 None
      "a" "b" "c"
    = AgentFactory.Raise (AgentFactory.InvalidAgentType bad).
Proof.
  destruct (create_integrated_agent_invalid_type
              [AgentFactory.Member CODE; AgentFactory.Str "coding"] "coding"
              5 true 2 None "a" "b" "c")
    as (bad & H & _).
  - right. left. reflexivity.
  - reflexivity.
  - exists bad. exact H.
Defined.

(** X28.  When agent types are given and every string among them is the
    value of an agent type, the factory delivers an agent exactly when one
    of them is code, research or planning, given as a member or by its
    value; the configuration of the agent then lists the given types, one
    for each element and in the given order.  Given reflection alone, the factory fails, as the
    workflow has no node to start from. *)
Theorem create_integrated_agent_valid_types
    (agent_types : list AgentFactory.TypeArg)
    (max_iterations : Z) (reflection_enabled : bool) (fault_tolerance_level : Z)
    (tools : option (list string))
    (agent_id agent_name agent_description : string) :
  agent_types <> [] ->
  (forall s, In (AgentFactory.Str s) agent_types ->
             AgentFactory.AgentType_of_value s <> None) ->
  exists ts,
    Forall2 (fun a t => a = AgentFactory.Member t \/
                        a = AgentFactory.Str (AgentType_value t))
            agent_types ts /\
    let config := mkConfig max_iterations ts reflection_enabled
                           fault_tolerance_level (get_or tools []) in
    AgentFactory.create_integrated_agent
      (Some agent_types) max_iterations reflection_enabled fault_tolerance_level
      tools agent_id agent_name agent_description
    = if has_type config CODE || has_type config RESEARCH || has_type config PLANNING
      then AgentFactory.Ok
             (AgentFactory.mkAgentWithInfo
                (AgentFactory.mkAgent config (_build_workflow config))
                agent_id agent_name agent_description)
      else AgentFactory.Raise AgentFactory.InvalidWorkflow.
Proof.
  intros Hne Hvalid.
  destruct (convert_all_ok agent_types Hvalid) as (ts & Hts & Hall).
  exists ts. split; [exact Hall|]. cbv zeta.
  assert (Htools : match tools with Some (t :: l) => t :: l | _ => [] end
                   = get_or tools []).
  { destruct tools as [[|t l]|]; reflexivity. }
  unfold AgentFactory.create_integrated_agent, AgentFactory.DefaultIntegratedAgent.
  destruct agent_types as [|a l]; [congruence|]. rewrite Hts, Htools.
  destruct ts as [|t ts]; [inversion Hall|].
  rewrite compile_built_iff.
  now destruct (has_type _ CODE || has_type _ RESEARCH || has_type _ PLANNING).
Qed.

Lemma create_integrated_agent_valid_types_witness :
  AgentFactory.create_integrated_agent
    (Some [AgentFactory.Str "reflection"]) 5 true 2 None "a" "b" "c"
  = AgentFactory.Raise AgentFactory.InvalidWorkflow.
Proof.
  destruct (create_integrated_agent_valid_types
              [AgentFactory.Str "reflection"] 5 true 2 None "a" "b" "c")
    as (ts & Hts & H).
  - discriminate.
  - intros s [[= <-] | []]. discriminate.
  - inversion Hts as [|a t l l' Ha Hl]; subst. inversion Hl; subst.
    destruct Ha as [Ha | Ha]; [discriminate|].
    injection Ha as Ha. destruct t; try discriminate. exact H.
Defined.
